(** * The Windows bridge builder of the vpc-shared-eni plugin

    A shallow embedding of [plugins/vpc-shared-eni/network/bridge_windows.go]
    and the properties of its network/endpoint lifecycle.

    Conventions of the embedding.
    - Go strings are [string]; [net.IP], [net.IPMask] and
      [net.HardwareAddr] are byte lists, the nil slice being the empty list
      unless a function distinguishes them (then it is an [option]).
    - A Go [error] is a value of [error]; the nil error is [None] in
      [option error]; a pair (value, err) returned by the HNS client is a
      [result].
    - Every call into hcsshim/hcn is a node of the program tree [hns]; a
      run against a handler of the control service yields the outcome, the
      final service state and the ordered list of the calls made with their
      answers.  An index out of range is the outcome [Panic].
    - seelog calls have no influence on control flow or results and are
      left out.  The pointers [nw], [ep] and [nw.SharedENI] are non-nil. *)

From Stdlib Require Import String Ascii List Bool ZArith Lia.
From Stdlib Require Import Strings.Byte DecimalString NArith.
Import ListNotations.
Local Open Scope string_scope.
Local Open Scope list_scope.

(** ** Go strings *)

Module strings.

(** [strings.HasPrefix]: [len(s) >= len(prefix) && s[0:len(prefix)] == prefix]. *)
Definition HasPrefix (s prefix : string) : bool :=
  (String.length prefix <=? String.length s)%nat
  && String.eqb (substring 0 (String.length prefix) s) prefix.

(** [strings.TrimPrefix]: [s[len(prefix):]] when [s] has the prefix, else [s]. *)
Definition TrimPrefix (s prefix : string) : string :=
  if HasPrefix s prefix
  then substring (String.length prefix)
                 (String.length s - String.length prefix) s
  else s.

(** [strings.Join]. *)
Definition Join (elems : list string) (sep : string) : string :=
  String.concat sep elems.

(** [strings.Replace(s, old, "", -1)] for a one-byte [old]: every
    occurrence of the byte is removed. *)
Fixpoint RemoveAll (s : string) (old : ascii) : string :=
  match s with
  | EmptyString => EmptyString
  | String c s' =>
      if Ascii.eqb c old then RemoveAll s' old else String c (RemoveAll s' old)
  end.

End strings.

(** ** Errors *)

Record HNSVersion := { Major : Z; Minor : Z }.

(** A Go [error]: hcsshim's sentinel [ErrComputeSystemDoesNotExist], any
    other error of hcsshim/hcn, or the value of a [fmt.Errorf] call, whose
    message is kept unformatted with its arguments. *)
Inductive error :=
| ErrComputeSystemDoesNotExist
| ErrService (msg : string)
| Errorf (format : string) (args : list fmtArg)
with fmtArg :=
| ArgString (s : string)
| ArgError (e : error)
| ArgVersion (v : HNSVersion).

(** [err == hcsshim.ErrComputeSystemDoesNotExist]. *)
Definition isErrComputeSystemDoesNotExist (e : error) : bool :=
  match e with
  | ErrComputeSystemDoesNotExist => true
  | _ => false
  end.

(** [(value, err)] as returned by the HNS client. *)
Definition result (A : Type) : Type := (A + error)%type.

(** ** Data model *)

Definition IP := list byte.
Definition IPMask := list byte.
Definition HardwareAddr := list byte.

Record IPNet := { IPNet_IP : IP; IPNet_Mask : IPMask }.

(** Modelled from the spec: the type [eni.ENI] of the backing interface,
    declared outside this file; the builder reads its adapter name and its
    MAC address. *)
Record ENI := { linkName : string; macAddress : HardwareAddr }.

Definition GetLinkName (e : ENI) : string := linkName e.
Definition GetMACAddress (e : ENI) : HardwareAddr := macAddress e.

(** Modelled from the spec: the type [Network], declared outside this file,
    with the fields the builder reads (name, bridge-namespace path, backing
    interface, allocated subnet addresses, gateway address, virtual-network
    CIDRs, service CIDR, DNS suffix and server lists).  [VPCCIDRs] is [None]
    for the nil slice, which the builder tells apart from an empty list. *)
Record Network := {
  Name : string;
  BridgeNetNSPath : string;
  SharedENI : ENI;
  ENIIPAddresses : list IPNet;
  GatewayIPAddress : IP;
  VPCCIDRs : option (list IPNet);
  ServiceCIDR : string;
  DNSSuffixSearchList : list string;
  DNSServers : list string
}.

(** Modelled from the spec: the type [Endpoint], declared outside this file
    (container identifier, raw namespace reference, allocated addresses, and
    the MAC address as output). *)
Record Endpoint := {
  ContainerID : string;
  NetNSName : string;
  IPAddresses : list IPNet;
  MACAddress : HardwareAddr
}.

Definition set_MACAddress (ep : Endpoint) (mac : HardwareAddr) : Endpoint :=
  {| ContainerID := ContainerID ep;
     NetNSName := NetNSName ep;
     IPAddresses := IPAddresses ep;
     MACAddress := mac |}.

(** [nsType] and its three constants. *)
Inductive nsType := infraContainerNS | appContainerNS | hcnNamespace.

Definition nsType_eqb (a b : nsType) : bool :=
  match a, b with
  | infraContainerNS, infraContainerNS
  | appContainerNS, appContainerNS
  | hcnNamespace, hcnNamespace => true
  | _, _ => false
  end.

(** ** Namespace classifier *)

Definition containerPrefix : string := "container:".

(** [BridgeBuilder.getNamespaceIdentifier]. *)
Definition getNamespaceIdentifier (ep : Endpoint) : nsType * string :=
  if String.eqb (NetNSName ep) "none" || String.eqb (NetNSName ep) "" then
    (infraContainerNS, ContainerID ep)
  else if strings.HasPrefix (NetNSName ep) containerPrefix then
    (appContainerNS, strings.TrimPrefix (NetNSName ep) containerPrefix)
  else
    (hcnNamespace, NetNSName ep).

(** ** Go's [net] package and the [vpc] helper

    The builder only formats, parses and masks addresses through these
    functions of Go's standard library and of the repository's [vpc]
    package; the development is parametric in them.  [IPv4Lib] below is the
    instance used to run the builder on IPv4 examples. *)

Class NetLib := {
  IP_String : IP -> string;
  IPNet_String : IPNet -> string;
  HardwareAddr_String : HardwareAddr -> string;
  ParseMAC : string -> result HardwareAddr;
  IPMask_Size : IPMask -> Z * Z;
  GetSubnetPrefix : IPNet -> IPNet
}.

(** [net.IP.To4]; [None] is the nil result. *)
Definition To4 (ip : IP) : option IP :=
  if (length ip =? 4)%nat then Some ip
  else if (length ip =? 16)%nat
          && forallb (Byte.eqb x00) (firstn 10 ip)
          && Byte.eqb (nth 10 ip x00) xff
          && Byte.eqb (nth 11 ip x00) xff
       then Some (firstn 4 (skipn 12 ip))
       else None.

Definition isNil {A} (o : option A) : bool :=
  match o with Some _ => false | None => true end.

(** ** The HNS client: records, calls and programs *)

(** [hcsshim.HNSVersion1803]. *)
Definition HNSVersion1803 : HNSVersion := {| Major := 7; Minor := 2 |}.

Record HNSGlobals := { Version : HNSVersion }.

Record Subnet := { AddressPrefix : string; GatewayAddress : string }.

Module HNSNetwork.
Record t := {
  Id : string;
  Name : string;
  Type_ : string;
  NetworkAdapterName : string;
  Subnets : list Subnet
}.
End HNSNetwork.

(** The two policy payloads the builder encodes: [hcsshim.OutboundNatPolicy]
    (type [OutboundNat]) and [hnsRoutePolicy] (type [Route]). *)
Inductive Policy :=
| OutboundNatPolicy (Exceptions : list string)
| hnsRoutePolicy (DestinationPrefix : string) (NeedEncap : bool).

Module HNSEndpoint.
Record t := {
  Id : string;
  Name : string;
  VirtualNetworkName : string;
  DNSSuffix : string;
  DNSServerList : string;
  IPAddress : IP;
  PrefixLength : Z;
  MacAddress : string;
  Policies : list Policy
}.

Definition set_address (e : t) (ip : IP) (pl : Z) : t :=
  {| Id := Id e; Name := Name e; VirtualNetworkName := VirtualNetworkName e;
     DNSSuffix := DNSSuffix e; DNSServerList := DNSServerList e;
     IPAddress := ip; PrefixLength := pl;
     MacAddress := MacAddress e; Policies := Policies e |}.

Definition set_Policies (e : t) (ps : list Policy) : t :=
  {| Id := Id e; Name := Name e; VirtualNetworkName := VirtualNetworkName e;
     DNSSuffix := DNSSuffix e; DNSServerList := DNSServerList e;
     IPAddress := IPAddress e; PrefixLength := PrefixLength e;
     MacAddress := MacAddress e; Policies := ps |}.
End HNSEndpoint.

(** A request body: [Some v] is the JSON text that encodes [v], [None] the
    empty string. *)
Definition json (A : Type) : Type := option A.

(** [json.Marshal]: the encoding of a value is represented by the value;
    encoding the records and policies of this file cannot fail. *)
Definition json_Marshal {A : Type} (v : A) : result A := inl v.

(** The calls into hcsshim and hcn, indexed by the type of their answer. *)
Inductive hnsCall : Type -> Type :=
| GetHNSGlobals : hnsCall (result HNSGlobals)
| GetHNSNetworkByName (name : string) : hnsCall (result HNSNetwork.t)
| HNSNetworkRequest (method path : string) (request : json HNSNetwork.t)
  : hnsCall (result HNSNetwork.t)
| GetHNSEndpointByName (name : string) : hnsCall (result HNSEndpoint.t)
| HNSEndpointRequest (method path : string) (request : json HNSEndpoint.t)
  : hnsCall (result HNSEndpoint.t)
| HotAttachEndpoint (containerID endpointID : string) : hnsCall (option error)
| HotDetachEndpoint (containerID endpointID : string) : hnsCall (option error)
| GetNamespaceEndpointIds (namespaceID : string) : hnsCall (result (list string))
| AddNamespaceEndpoint (namespaceID endpointID : string) : hnsCall (option error)
| RemoveNamespaceEndpoint (namespaceID endpointID : string) : hnsCall (option error).

(** A call together with its answer, as observed on the wire. *)
Inductive event :=
| EvGetHNSGlobals (r : result HNSGlobals)
| EvGetHNSNetworkByName (name : string) (r : result HNSNetwork.t)
| EvHNSNetworkRequest (method path : string) (request : json HNSNetwork.t)
                      (r : result HNSNetwork.t)
| EvGetHNSEndpointByName (name : string) (r : result HNSEndpoint.t)
| EvHNSEndpointRequest (method path : string) (request : json HNSEndpoint.t)
                       (r : result HNSEndpoint.t)
| EvHotAttachEndpoint (containerID endpointID : string) (r : option error)
| EvHotDetachEndpoint (containerID endpointID : string) (r : option error)
| EvGetNamespaceEndpointIds (namespaceID : string) (r : result (list string))
| EvAddNamespaceEndpoint (namespaceID endpointID : string) (r : option error)
| EvRemoveNamespaceEndpoint (namespaceID endpointID : string) (r : option error).

Definition mkEvent {X : Type} (c : hnsCall X) : X -> event :=
  match c in hnsCall X return X -> event with
  | GetHNSGlobals => EvGetHNSGlobals
  | GetHNSNetworkByName name => EvGetHNSNetworkByName name
  | HNSNetworkRequest m p rq => EvHNSNetworkRequest m p rq
  | GetHNSEndpointByName name => EvGetHNSEndpointByName name
  | HNSEndpointRequest m p rq => EvHNSEndpointRequest m p rq
  | HotAttachEndpoint c e => EvHotAttachEndpoint c e
  | HotDetachEndpoint c e => EvHotDetachEndpoint c e
  | GetNamespaceEndpointIds n => EvGetNamespaceEndpointIds n
  | AddNamespaceEndpoint n e => EvAddNamespaceEndpoint n e
  | RemoveNamespaceEndpoint n e => EvRemoveNamespaceEndpoint n e
  end.

(** Programs over the HNS client: return, panic, or call and continue. *)
Inductive hns (A : Type) : Type :=
| Ret (a : A)
| Panic (msg : string)
| Vis (X : Type) (c : hnsCall X) (k : X -> hns A).

Arguments Ret {A} a.
Arguments Panic {A} msg.
Arguments Vis {A X} c k.

Fixpoint bind {A B : Type} (p : hns A) (f : A -> hns B) : hns B :=
  match p with
  | Ret a => f a
  | Panic msg => Panic msg
  | Vis c k => Vis c (fun x => bind (k x) f)
  end.

Definition call {X : Type} (c : hnsCall X) : hns X := Vis c Ret.

Notation "x <- p ;; q" := (bind p (fun x => q))
  (at level 61, p at next level, right associativity).

(** [l[i]]: the element, or the run-time panic of an index out of range. *)
Definition index {A : Type} (l : list A) (i : nat) : hns A :=
  match nth_error l i with
  | Some a => Ret a
  | None => Panic "runtime error: index out of range"
  end.

(** *** Running a program against the control service *)

Inductive outcome (A : Type) : Type :=
| Returned (a : A)
| Panicked (msg : string).

Arguments Returned {A} a.
Arguments Panicked {A} msg.

(** A control service with states [W]: every call gets an answer and a next state. *)
Definition handler (W : Type) : Type := forall X : Type, hnsCall X -> W -> X * W.

Fixpoint run {W A : Type} (h : handler W) (p : hns A) (w : W)
  : outcome A * W * list event :=
  match p with
  | Ret a => (Returned a, w, [])
  | Panic msg => (Panicked msg, w, [])
  | Vis c k =>
      let (x, w1) := h _ c w in
      let '(o, w2, tr) := run h (k x) w1 in
      (o, w2, mkEvent c x :: tr)
  end.

Definition outcome_of {W A : Type} (r : outcome A * W * list event) : outcome A :=
  fst (fst r).
Definition state_of {W A : Type} (r : outcome A * W * list event) : W :=
  snd (fst r).
Definition trace_of {W A : Type} (r : outcome A * W * list event) : list event :=
  snd r.

(** ** The bridge builder *)

Definition hnsL2Bridge : string := "l2bridge".

(** [hnsMinVersion], the minimum version of HNS supported by the plugin. *)
Definition hnsMinVersion : HNSVersion := HNSVersion1803.

(** The test [supported] of [checkHNSVersion]. *)
Definition supported (hnsVersion : HNSVersion) : bool :=
  (Major hnsVersion >? Major hnsMinVersion)%Z
  || ((Major hnsVersion =? Major hnsMinVersion)%Z
      && (Minor hnsVersion >=? Minor hnsMinVersion)%Z).

(** [BridgeBuilder.checkHNSVersion]. *)
Definition checkHNSVersion : hns (option error) :=
  r <- call GetHNSGlobals ;;
  match r with
  | inr err => Ret (Some err)
  | inl hnsGlobals =>
      let hnsVersion := Version hnsGlobals in
      if negb (supported hnsVersion) then
        Ret (Some (Errorf "HNS is older than the minimum supported version %v"
                          [ArgVersion hnsMinVersion]))
      else Ret None
  end.

(** [BridgeBuilder.attachEndpointV1]. *)
Definition attachEndpointV1 (ep : HNSEndpoint.t) (containerID : string)
  : hns (option error) :=
  call (HotAttachEndpoint containerID (HNSEndpoint.Id ep)).

(** [BridgeBuilder.attachEndpointV2]. *)
Definition attachEndpointV2 (ep : HNSEndpoint.t) (netNSName : string)
  : hns (option error) :=
  r <- call (GetNamespaceEndpointIds netNSName) ;;
  match r with
  | inr err => Ret (Some err)
  | inl nsEndpoints =>
      if existsb (String.eqb (HNSEndpoint.Id ep)) nsEndpoints then Ret None
      else call (AddNamespaceEndpoint netNSName (HNSEndpoint.Id ep))
  end.

(** [BridgeBuilder.addEndpointPolicy]: the endpoint with the encoded policy
    appended, and the error of the encoding. *)
Definition addEndpointPolicy (ep : HNSEndpoint.t) (policy : Policy)
  : HNSEndpoint.t * option error :=
  match json_Marshal policy with
  | inr err => (ep, Some err)
  | inl buf =>
      (HNSEndpoint.set_Policies ep (HNSEndpoint.Policies ep ++ [buf]), None)
  end.

(** The test [err != nil && err != hcsshim.ErrComputeSystemDoesNotExist] of
    [DeleteEndpoint]. *)
Definition fatalDetachError (err : option error) : bool :=
  match err with
  | Some e => negb (isErrComputeSystemDoesNotExist e)
  | None => false
  end.

(** [BridgeBuilder.generateHNSEndpointName]. *)
Definition generateHNSEndpointName (ep : Endpoint) (id : string) : string :=
  let id := if String.eqb id "" then ContainerID ep else id in
  "cid-" ++ id.

Section Builder.

Context {netlib : NetLib}.

(** [BridgeBuilder.generateHNSNetworkName]. *)
Definition generateHNSNetworkName (nw : Network) : string :=
  let id := strings.RemoveAll
              (HardwareAddr_String (GetMACAddress (SharedENI nw))) ":"%char in
  Name nw ++ "br" ++ id.

(** [BridgeBuilder.FindOrCreateNetwork]. *)
Definition FindOrCreateNetwork (nw : Network) : hns (option error) :=
  err <- checkHNSVersion ;;
  match err with
  | Some e => Ret (Some e)
  | None =>
      if negb (String.eqb (BridgeNetNSPath nw) "") then
        Ret (Some (Errorf "Bridge must be in host network namespace on Windows" []))
      else
        let networkName := generateHNSNetworkName nw in
        r <- call (GetHNSNetworkByName networkName) ;;
        match r with
        | inl _ => Ret None
        | inr _ =>
            eniAddr <- index (ENIIPAddresses nw) 0 ;;
            let hnsNetwork :=
              {| HNSNetwork.Id := "";
                 HNSNetwork.Name := networkName;
                 HNSNetwork.Type_ := hnsL2Bridge;
                 HNSNetwork.NetworkAdapterName := GetLinkName (SharedENI nw);
                 HNSNetwork.Subnets :=
                   [ {| AddressPrefix := IPNet_String (GetSubnetPrefix eniAddr);
                        GatewayAddress := IP_String (GatewayIPAddress nw) |} ] |} in
            match json_Marshal hnsNetwork with
            | inr err => Ret (Some err)
            | inl buf =>
                let hnsRequest := Some buf in
                r <- call (HNSNetworkRequest "POST" "" hnsRequest) ;;
                match r with
                | inr err => Ret (Some err)
                | inl _ => Ret None
                end
            end
        end
  end.

(** [BridgeBuilder.DeleteNetwork]. *)
Definition DeleteNetwork (nw : Network) : hns (option error) :=
  let networkName := generateHNSNetworkName nw in
  r <- call (GetHNSNetworkByName networkName) ;;
  match r with
  | inr err => Ret (Some err)
  | inl hnsNetwork =>
      r <- call (HNSNetworkRequest "DELETE" (HNSNetwork.Id hnsNetwork) None) ;;
      match r with
      | inr err => Ret (Some err)
      | inl _ => Ret None
      end
  end.

(** The exceptions of the SNAT policy, lines 190-204 of
    [FindOrCreateEndpoint]. *)
Definition snatExceptions (nw : Network) : hns (list string) :=
  snatExceptions <-
    match VPCCIDRs nw with
    | None =>
        eniAddr <- index (ENIIPAddresses nw) 0 ;;
        Ret [IPNet_String (GetSubnetPrefix eniAddr)]
    | Some cidrs => Ret (map IPNet_String cidrs)
    end ;;
  if negb (String.eqb (ServiceCIDR nw) "") then
    Ret (snatExceptions ++ [ServiceCIDR nw])
  else Ret snatExceptions.

(** The address test that opens [FindOrCreateEndpoint]:
    [len(ep.IPAddresses) > 1 || ep.IPAddresses[0].IP.To4() == nil]. *)
Definition unsupportedAddresses (ep : Endpoint) : hns bool :=
  if (1 <? length (IPAddresses ep))%nat then Ret true
  else
    a <- index (IPAddresses ep) 0 ;;
    Ret (isNil (To4 (IPNet_IP a))).

(** The value [net.ParseMAC] leaves in [ep.MACAddress]; nil on a parse error. *)
Definition parsedMAC (s : string) : HardwareAddr :=
  match ParseMAC s with
  | inl mac => mac
  | inr _ => []
  end.

(** [BridgeBuilder.FindOrCreateEndpoint]; the result is the endpoint as
    the call leaves it, with the returned error. *)
Definition FindOrCreateEndpoint (nw : Network) (ep : Endpoint)
  : hns (Endpoint * option error) :=
  bad <- unsupportedAddresses ep ;;
  if bad then
    Ret (ep, Some (Errorf "Only a single IPv4 address per endpoint is supported on Windows" []))
  else
  let '(nsType, namespaceIdentifier) := getNamespaceIdentifier ep in
  let endpointName := generateHNSEndpointName ep namespaceIdentifier in
  r <- call (GetHNSEndpointByName endpointName) ;;
  match r with
  | inl hnsEndpoint =>
      err <- (if nsType_eqb nsType infraContainerNS || nsType_eqb nsType hcnNamespace
              then Ret None
              else attachEndpointV1 hnsEndpoint (ContainerID ep)) ;;
      Ret (set_MACAddress ep (parsedMAC (HNSEndpoint.MacAddress hnsEndpoint)), err)
  | inr err =>
      if negb (nsType_eqb nsType infraContainerNS)
         && negb (nsType_eqb nsType hcnNamespace) then
        Ret (ep, Some (Errorf "failed to find endpoint %s: %v"
                              [ArgString endpointName; ArgError err]))
      else
      let hnsEndpoint :=
        {| HNSEndpoint.Id := "";
           HNSEndpoint.Name := endpointName;
           HNSEndpoint.VirtualNetworkName := generateHNSNetworkName nw;
           HNSEndpoint.DNSSuffix := strings.Join (DNSSuffixSearchList nw) ",";
           HNSEndpoint.DNSServerList := strings.Join (DNSServers nw) ",";
           HNSEndpoint.IPAddress := [];
           HNSEndpoint.PrefixLength := 0;
           HNSEndpoint.MacAddress := "";
           HNSEndpoint.Policies := [] |} in
      addr <- index (IPAddresses ep) 0 ;;
      let pl := fst (IPMask_Size (IPNet_Mask addr)) in
      let hnsEndpoint :=
        HNSEndpoint.set_address hnsEndpoint (IPNet_IP addr) (pl mod 256) in
      snatExceptions <- snatExceptions nw ;;
      let '(hnsEndpoint, err) :=
        addEndpointPolicy hnsEndpoint (OutboundNatPolicy snatExceptions) in
      match err with Some e => Ret (ep, Some e) | None =>
      r <- (if negb (String.eqb (ServiceCIDR nw) "") then
              let '(hnsEndpoint, err) :=
                addEndpointPolicy hnsEndpoint
                  (hnsRoutePolicy (ServiceCIDR nw) true) in
              match err with Some e => Ret (inr e) | None =>
              eniAddr <- index (ENIIPAddresses nw) 0 ;;
              let '(hnsEndpoint, err) :=
                addEndpointPolicy hnsEndpoint
                  (hnsRoutePolicy (IP_String (IPNet_IP eniAddr) ++ "/32") true) in
              match err with Some e => Ret (inr e) | None =>
              Ret (inl hnsEndpoint)
              end end
            else Ret (inl hnsEndpoint)) ;;
      match r with inr e => Ret (ep, Some e) | inl hnsEndpoint =>
      match json_Marshal hnsEndpoint with
      | inr err => Ret (ep, Some err)
      | inl buf =>
          let hnsRequest := Some buf in
          r <- call (HNSEndpointRequest "POST" "" hnsRequest) ;;
          match r with
          | inr err => Ret (ep, Some err)
          | inl hnsResponse =>
              err <- (if nsType_eqb nsType infraContainerNS
                      then attachEndpointV1 hnsResponse (ContainerID ep)
                      else Ret None) ;;
              err <- (if nsType_eqb nsType hcnNamespace
                      then attachEndpointV2 hnsResponse namespaceIdentifier
                      else Ret err) ;;
              match err with
              | Some e =>
                  _ <- call (HNSEndpointRequest "DELETE"
                               (HNSEndpoint.Id hnsResponse) None) ;;
                  Ret (ep, Some e)
              | None =>
                  Ret (set_MACAddress ep
                         (parsedMAC (HNSEndpoint.MacAddress hnsResponse)), None)
              end
          end
      end end end
  end.

(** [BridgeBuilder.DeleteEndpoint]. *)
Definition DeleteEndpoint (nw : Network) (ep : Endpoint) : hns (option error) :=
  let '(nsType, namespaceIdentifier) := getNamespaceIdentifier ep in
  let endpointName := generateHNSEndpointName ep namespaceIdentifier in
  r <- call (GetHNSEndpointByName endpointName) ;;
  match r with
  | inr err => Ret (Some err)
  | inl hnsEndpoint =>
      let delete :=
        r <- call (HNSEndpointRequest "DELETE" (HNSEndpoint.Id hnsEndpoint) None) ;;
        match r with
        | inr err => Ret (Some err)
        | inl _ => Ret None
        end in
      if nsType_eqb nsType hcnNamespace then
        _ <- call (RemoveNamespaceEndpoint namespaceIdentifier
                     (HNSEndpoint.Id hnsEndpoint)) ;;
        delete
      else
        err <- call (HotDetachEndpoint (ContainerID ep) (HNSEndpoint.Id hnsEndpoint)) ;;
        if fatalDetachError err then Ret err
        else if nsType_eqb nsType appContainerNS then Ret None
        else delete
  end.

End Builder.

(** ** An IPv4 instance of the address helpers

    Go's formatting and parsing restricted to what IPv4 deployments use:
    dotted decimal addresses, CIDR notation with a contiguous mask, and MAC
    addresses as two-digit hexadecimal groups.  Other inputs get Go's
    fallback rendering ([?] followed by the hexadecimal bytes) or a parse
    error. *)

Module IPv4.

Definition hexDigit (n : N) : ascii :=
  nth (N.to_nat n) (list_ascii_of_string "0123456789abcdef") "?"%char.

Definition hexByte (b : byte) : string :=
  let n := Byte.to_N b in
  String (hexDigit (N.div n 16)) (String (hexDigit (N.modulo n 16)) "").

Definition hexString (bs : list byte) : string :=
  String.concat "" (map hexByte bs).

Definition itoa (n : N) : string := NilZero.string_of_uint (N.to_uint n).

Definition IP_String (ip : IP) : string :=
  match ip with
  | [] => "<nil>"
  | _ =>
      match To4 ip with
      | Some p4 => String.concat "." (map (fun b => itoa (Byte.to_N b)) p4)
      | None => "?" ++ hexString ip
      end
  end.

(** The bits of a mask, most significant first. *)
Definition bitsOf (b : byte) : list bool :=
  map (fun i => N.testbit (Byte.to_N b) i) [7; 6; 5; 4; 3; 2; 1; 0]%N.

Fixpoint leadingOnes (bits : list bool) : nat :=
  match bits with
  | true :: bits' => S (leadingOnes bits')
  | _ => 0
  end.

(** [simpleMaskLength]: the number of leading ones of a contiguous mask. *)
Definition simpleMaskLength (mask : IPMask) : option nat :=
  let bits := flat_map bitsOf mask in
  let n := leadingOnes bits in
  if forallb negb (skipn n bits) then Some n else None.

(** [net.IPMask.Size]. *)
Definition IPMask_Size (mask : IPMask) : Z * Z :=
  match simpleMaskLength mask with
  | Some n => (Z.of_nat n, Z.of_nat (length mask * 8))
  | None => (0, 0)%Z
  end.

Definition IPNet_String (n : IPNet) : string :=
  match simpleMaskLength (IPNet_Mask n) with
  | Some l => IP_String (IPNet_IP n) ++ "/" ++ itoa (N.of_nat l)
  | None => IP_String (IPNet_IP n) ++ "/" ++ hexString (IPNet_Mask n)
  end.

Definition HardwareAddr_String (a : HardwareAddr) : string :=
  String.concat ":" (map hexByte a).

Definition hexValue (c : ascii) : option N :=
  let n := N_of_ascii c in
  if (48 <=? n)%N && (n <=? 57)%N then Some (n - 48)%N
  else if (97 <=? n)%N && (n <=? 102)%N then Some (n - 87)%N
  else if (65 <=? n)%N && (n <=? 70)%N then Some (n - 55)%N
  else None.

(** Groups of two hexadecimal digits separated by [:] or [-]. *)
Fixpoint parseGroups (s : string) : option (list byte) :=
  match s with
  | String h (String l rest) =>
      match hexValue h, hexValue l with
      | Some x, Some y =>
          match Byte.of_N (16 * x + y) with
          | Some b =>
              match rest with
              | EmptyString => Some [b]
              | String sep rest' =>
                  if Ascii.eqb sep ":" || Ascii.eqb sep "-" then
                    option_map (cons b) (parseGroups rest')
                  else None
              end
          | None => None
          end
      | _, _ => None
      end
  | _ => None
  end.

Definition ParseMAC (s : string) : result HardwareAddr :=
  match parseGroups s with
  | Some mac =>
      if (length mac =? 6)%nat || (length mac =? 8)%nat || (length mac =? 20)%nat
      then inl mac
      else inr (ErrService ("address " ++ s ++ ": invalid MAC address"))
  | None => inr (ErrService ("address " ++ s ++ ": invalid MAC address"))
  end.

Definition andByte (a m : byte) : byte :=
  match Byte.of_N (N.land (Byte.to_N a) (Byte.to_N m)) with
  | Some b => b
  | None => x00
  end.

Fixpoint maskBytes (ip mask : list byte) : list byte :=
  match ip, mask with
  | a :: ip', m :: mask' => andByte a m :: maskBytes ip' mask'
  | _, _ => []
  end.

(** Modelled from the spec: [vpc.GetSubnetPrefix], the subnet prefix of an
    address, defined outside this file: the address masked by its own mask,
    with the mask; an address and a mask of different lengths give the nil
    address, as [net.IP.Mask] does. *)
Definition GetSubnetPrefix (n : IPNet) : IPNet :=
  {| IPNet_IP := if (length (IPNet_IP n) =? length (IPNet_Mask n))%nat
                 then maskBytes (IPNet_IP n) (IPNet_Mask n) else [];
     IPNet_Mask := IPNet_Mask n |}.

End IPv4.

#[global] Instance IPv4Lib : NetLib := {|
  IP_String := IPv4.IP_String;
  IPNet_String := IPv4.IPNet_String;
  HardwareAddr_String := IPv4.HardwareAddr_String;
  ParseMAC := IPv4.ParseMAC;
  IPMask_Size := IPv4.IPMask_Size;
  GetSubnetPrefix := IPv4.GetSubnetPrefix
|}.

Definition ipv4 (a b c d : byte) : IP := [a; b; c; d].

(** ** A reference control service

    The consumed surface of the control service as two collections of named
    and identified records (networks and endpoints), the running containers
    for the legacy attach, the namespaces with their members, and the global
    version.  Lookups do not change the state; a create stores the record
    under a fresh identifier. *)

Module Service.

Record state := {
  version : HNSVersion;
  networks : list HNSNetwork.t;
  endpoints : list HNSEndpoint.t;
  containers : list string;
  namespaces : list string;
  attached : list (string * string);
  members : list (string * string);
  nextId : N
}.

Definition freshId (s : state) : string := "id-" ++ IPv4.itoa (nextId s).

Definition freshMac (s : state) : string :=
  "00-15-5d-00-00-"
  ++ IPv4.hexByte (match Byte.of_N (N.modulo (nextId s) 256) with
                   | Some b => b
                   | None => x00
                   end).

Definition notFound (what name : string) : error :=
  ErrService (what ++ " " ++ name ++ " not found").

Definition pair_eqb (a b : string * string) : bool :=
  String.eqb (fst a) (fst b) && String.eqb (snd a) (snd b).

Definition mem (x : string) (l : list string) : bool :=
  existsb (String.eqb x) l.

Definition with_networks (s : state) (l : list HNSNetwork.t) (n : N) : state :=
  {| version := version s; networks := l; endpoints := endpoints s;
     containers := containers s; namespaces := namespaces s;
     attached := attached s; members := members s; nextId := n |}.

Definition with_endpoints (s : state) (l : list HNSEndpoint.t) (n : N) : state :=
  {| version := version s; networks := networks s; endpoints := l;
     containers := containers s; namespaces := namespaces s;
     attached := attached s; members := members s; nextId := n |}.

Definition with_attached (s : state) (l : list (string * string)) : state :=
  {| version := version s; networks := networks s; endpoints := endpoints s;
     containers := containers s; namespaces := namespaces s;
     attached := l; members := members s; nextId := nextId s |}.

Definition with_members (s : state) (l : list (string * string)) : state :=
  {| version := version s; networks := networks s; endpoints := endpoints s;
     containers := containers s; namespaces := namespaces s;
     attached := attached s; members := l; nextId := nextId s |}.

Definition networkByName (s : state) (name : string) : option HNSNetwork.t :=
  find (fun n => String.eqb (HNSNetwork.Name n) name) (networks s).

Definition endpointByName (s : state) (name : string) : option HNSEndpoint.t :=
  find (fun e => String.eqb (HNSEndpoint.Name e) name) (endpoints s).

Definition networkRequest (method path : string) (request : json HNSNetwork.t)
           (s : state) : result HNSNetwork.t * state :=
  if String.eqb method "POST" then
    match request with
    | Some n =>
        let n' := {| HNSNetwork.Id := freshId s;
                     HNSNetwork.Name := HNSNetwork.Name n;
                     HNSNetwork.Type_ := HNSNetwork.Type_ n;
                     HNSNetwork.NetworkAdapterName := HNSNetwork.NetworkAdapterName n;
                     HNSNetwork.Subnets := HNSNetwork.Subnets n |} in
        (inl n', with_networks s (networks s ++ [n']) (nextId s + 1))
    | None => (inr (ErrService "invalid request"), s)
    end
  else if String.eqb method "DELETE" then
    match find (fun n => String.eqb (HNSNetwork.Id n) path) (networks s) with
    | Some n =>
        (inl n, with_networks s
                  (filter (fun n => negb (String.eqb (HNSNetwork.Id n) path))
                          (networks s)) (nextId s))
    | None => (inr (notFound "network" path), s)
    end
  else (inr (ErrService "unsupported method"), s).

Definition endpointRequest (method path : string) (request : json HNSEndpoint.t)
           (s : state) : result HNSEndpoint.t * state :=
  if String.eqb method "POST" then
    match request with
    | Some e =>
        let e' := {| HNSEndpoint.Id := freshId s;
                     HNSEndpoint.Name := HNSEndpoint.Name e;
                     HNSEndpoint.VirtualNetworkName := HNSEndpoint.VirtualNetworkName e;
                     HNSEndpoint.DNSSuffix := HNSEndpoint.DNSSuffix e;
                     HNSEndpoint.DNSServerList := HNSEndpoint.DNSServerList e;
                     HNSEndpoint.IPAddress := HNSEndpoint.IPAddress e;
                     HNSEndpoint.PrefixLength := HNSEndpoint.PrefixLength e;
                     HNSEndpoint.MacAddress := freshMac s;
                     HNSEndpoint.Policies := HNSEndpoint.Policies e |} in
        (inl e', with_endpoints s (endpoints s ++ [e']) (nextId s + 1))
    | None => (inr (ErrService "invalid request"), s)
    end
  else if String.eqb method "DELETE" then
    match find (fun e => String.eqb (HNSEndpoint.Id e) path) (endpoints s) with
    | Some e =>
        (inl e, with_endpoints s
                  (filter (fun e => negb (String.eqb (HNSEndpoint.Id e) path))
                          (endpoints s)) (nextId s))
    | None => (inr (notFound "endpoint" path), s)
    end
  else (inr (ErrService "unsupported method"), s).

Definition hasEndpoint (s : state) (id : string) : bool :=
  existsb (fun e => String.eqb (HNSEndpoint.Id e) id) (endpoints s).

Definition hotAttach (containerID endpointID : string) (s : state)
  : option error * state :=
  if negb (mem containerID (containers s)) then
    (Some ErrComputeSystemDoesNotExist, s)
  else if negb (hasEndpoint s endpointID) then
    (Some (notFound "endpoint" endpointID), s)
  else (None, with_attached s (attached s ++ [(containerID, endpointID)])).

Definition hotDetach (containerID endpointID : string) (s : state)
  : option error * state :=
  if negb (mem containerID (containers s)) then
    (Some ErrComputeSystemDoesNotExist, s)
  else if existsb (pair_eqb (containerID, endpointID)) (attached s) then
    (None, with_attached s
             (filter (fun p => negb (pair_eqb (containerID, endpointID) p))
                     (attached s)))
  else (Some (ErrService "endpoint is not attached"), s).

Definition namespaceEndpointIds (namespaceID : string) (s : state)
  : result (list string) * state :=
  if mem namespaceID (namespaces s) then
    (inl (map snd (filter (fun p => String.eqb (fst p) namespaceID) (members s))), s)
  else (inr (notFound "namespace" namespaceID), s).

Definition namespaceAdd (namespaceID endpointID : string) (s : state)
  : option error * state :=
  if negb (mem namespaceID (namespaces s)) then
    (Some (notFound "namespace" namespaceID), s)
  else if negb (hasEndpoint s endpointID) then
    (Some (notFound "endpoint" endpointID), s)
  else (None, with_members s (members s ++ [(namespaceID, endpointID)])).

Definition namespaceRemove (namespaceID endpointID : string) (s : state)
  : option error * state :=
  if existsb (pair_eqb (namespaceID, endpointID)) (members s) then
    (None, with_members s
             (filter (fun p => negb (pair_eqb (namespaceID, endpointID) p))
                     (members s)))
  else (Some (ErrService "endpoint is not in the namespace"), s).

Definition serve : handler state :=
  fun X c =>
    match c in hnsCall X return state -> X * state with
    | GetHNSGlobals => fun s => (inl {| Version := version s |}, s)
    | GetHNSNetworkByName name => fun s =>
        match networkByName s name with
        | Some n => (inl n, s)
        | None => (inr (notFound "network" name), s)
        end
    | HNSNetworkRequest m p rq => networkRequest m p rq
    | GetHNSEndpointByName name => fun s =>
        match endpointByName s name with
        | Some e => (inl e, s)
        | None => (inr (notFound "endpoint" name), s)
        end
    | HNSEndpointRequest m p rq => endpointRequest m p rq
    | HotAttachEndpoint c e => hotAttach c e
    | HotDetachEndpoint c e => hotDetach c e
    | GetNamespaceEndpointIds n => namespaceEndpointIds n
    | AddNamespaceEndpoint n e => namespaceAdd n e
    | RemoveNamespaceEndpoint n e => namespaceRemove n e
    end.

(** The number of networks stored under a name. *)
Definition countNetworks (s : state) (name : string) : nat :=
  length (filter (fun n => String.eqb (HNSNetwork.Name n) name) (networks s)).

(** A host at the minimum version with nothing created, one running
    container and one namespace. *)
Definition fresh : state :=
  {| version := hnsMinVersion; networks := []; endpoints := [];
     containers := ["c1"]; namespaces := ["ns-123"];
     attached := []; members := []; nextId := 1 |}.

End Service.

(** ** Sample inputs *)

Definition eni0 : ENI :=
  {| linkName := "Ethernet 2"; macAddress := [x0a; x1b; x2c; x3d; x4e; x5f] |}.

Definition cidr (a b c d : byte) (m : IPMask) : IPNet :=
  {| IPNet_IP := ipv4 a b c d; IPNet_Mask := m |}.

Definition mask16 : IPMask := [xff; xff; x00; x00].
Definition mask24 : IPMask := [xff; xff; xff; x00].

(** A network on subnet 10.0.0.0/24 with no virtual-network CIDR list and no
    service CIDR. *)
Definition nwPlain : Network :=
  {| Name := "vpc"; BridgeNetNSPath := ""; SharedENI := eni0;
     ENIIPAddresses := [cidr x0a x00 x00 x05 mask24];
     GatewayIPAddress := ipv4 x0a x00 x00 x01;
     VPCCIDRs := None; ServiceCIDR := "";
     DNSSuffixSearchList := ["svc.cluster.local"; "cluster.local"];
     DNSServers := ["10.0.0.2"] |}.

(** The same network with two virtual-network CIDRs and a service CIDR. *)
Definition nwVPC : Network :=
  {| Name := "vpc"; BridgeNetNSPath := ""; SharedENI := eni0;
     ENIIPAddresses := [cidr x0a x00 x00 x05 mask24];
     GatewayIPAddress := ipv4 x0a x00 x00 x01;
     VPCCIDRs := Some [cidr x0a x00 x00 x00 mask16; cidr x0a x01 x00 x00 mask16];
     ServiceCIDR := "172.20.0.0/16";
     DNSSuffixSearchList := []; DNSServers := [] |}.

(** The same network asked for in a bridge namespace other than the host's. *)
Definition nwOtherNS : Network :=
  {| Name := "vpc"; BridgeNetNSPath := "/var/run/netns/blue"; SharedENI := eni0;
     ENIIPAddresses := [cidr x0a x00 x00 x05 mask24];
     GatewayIPAddress := ipv4 x0a x00 x00 x01;
     VPCCIDRs := None; ServiceCIDR := "";
     DNSSuffixSearchList := []; DNSServers := [] |}.

Definition mkEndpoint (containerID netNSName : string) (addrs : list IPNet)
  : Endpoint :=
  {| ContainerID := containerID; NetNSName := netNSName;
     IPAddresses := addrs; MACAddress := [] |}.

Definition addr1 : IPNet := cidr x0a x00 x00 x07 mask24.
Definition addr2 : IPNet := cidr x0a x00 x00 x08 mask24.
Definition addr6 : IPNet :=
  {| IPNet_IP := [x20; x01; x0d; xb8; x00; x00; x00; x00;
                  x00; x00; x00; x00; x00; x00; x00; x01];
     IPNet_Mask := [xff; xff; xff; xff; xff; xff; xff; xff;
                    x00; x00; x00; x00; x00; x00; x00; x00] |}.

Definition oldService : Service.state :=
  {| Service.version := {| Major := 7; Minor := 1 |};
     Service.networks := []; Service.endpoints := [];
     Service.containers := []; Service.namespaces := [];
     Service.attached := []; Service.members := []; Service.nextId := 1 |}.

Definition epGone : Endpoint := mkEndpoint "c9" "none" [addr1].

(** A host on which the infra container [c1] has its endpoint. *)
Definition hostWithEndpoint : Service.state :=
  Eval vm_compute in
    state_of (run Service.serve
                  (FindOrCreateEndpoint nwPlain (mkEndpoint "c1" "none" [addr1]))
                  Service.fresh).

(** A host on which the namespace [ns-123] has its endpoint. *)
Definition hostWithNamespaceEndpoint : Service.state :=
  Eval vm_compute in
    state_of (run Service.serve
                  (FindOrCreateEndpoint nwPlain (mkEndpoint "c7" "ns-123" [addr1]))
                  Service.fresh).

(** The create requests for the infra container [c1] on the two sample
    networks. *)
Definition reqPlain : HNSEndpoint.t :=
  {| HNSEndpoint.Id := "";
     HNSEndpoint.Name := "cid-c1";
     HNSEndpoint.VirtualNetworkName := "vpcbr0a1b2c3d4e5f";
     HNSEndpoint.DNSSuffix := "svc.cluster.local,cluster.local";
     HNSEndpoint.DNSServerList := "10.0.0.2";
     HNSEndpoint.IPAddress := ipv4 x0a x00 x00 x07;
     HNSEndpoint.PrefixLength := 24;
     HNSEndpoint.MacAddress := "";
     HNSEndpoint.Policies := [OutboundNatPolicy ["10.0.0.0/24"]] |}.

Definition reqVPC : HNSEndpoint.t :=
  {| HNSEndpoint.Id := "";
     HNSEndpoint.Name := "cid-c1";
     HNSEndpoint.VirtualNetworkName := "vpcbr0a1b2c3d4e5f";
     HNSEndpoint.DNSSuffix := "";
     HNSEndpoint.DNSServerList := "";
     HNSEndpoint.IPAddress := ipv4 x0a x00 x00 x07;
     HNSEndpoint.PrefixLength := 24;
     HNSEndpoint.MacAddress := "";
     HNSEndpoint.Policies :=
       [OutboundNatPolicy ["10.0.0.0/16"; "10.1.0.0/16"; "172.20.0.0/16"];
        hnsRoutePolicy "172.20.0.0/16" true;
        hnsRoutePolicy "10.0.0.5/32" true] |}.

(** ** Vocabulary of the properties *)

(** The lexicographic order on {major, minor}. *)
Definition versionLt (a b : HNSVersion) : Prop :=
  (Major a < Major b \/ (Major a = Major b /\ Minor a < Minor b))%Z.

Definition errUnsupportedAddresses : error :=
  Errorf "Only a single IPv4 address per endpoint is supported on Windows" [].

Definition errBridgeNamespace : error :=
  Errorf "Bridge must be in host network namespace on Windows" [].

(** A request that creates or deletes an endpoint object. *)
Definition isEndpointRequest (ev : event) : bool :=
  match ev with
  | EvHNSEndpointRequest _ _ _ _ => true
  | _ => false
  end.

(** A request that creates or deletes a network or an endpoint, or changes
    an attachment. *)
Definition isMutation (ev : event) : bool :=
  match ev with
  | EvGetHNSGlobals _ | EvGetHNSNetworkByName _ _ | EvGetHNSEndpointByName _ _
  | EvGetNamespaceEndpointIds _ _ => false
  | _ => true
  end.

(** The error returned for the answer of a delete request. *)
Definition errorOf {A : Type} (r : result A) : option error :=
  match r with
  | inl _ => None
  | inr err => Some err
  end.

(** The attach step fails with [e], leaving [rest] of the trace: the legacy
    hot-attach answers [e]; or the listing of the namespace members answers
    [e]; or the endpoint is not yet a member and the namespace-add answers
    [e]. *)
Inductive attachFails : list event -> error -> list event -> Prop :=
| hotAttachFails (c id : string) (e : error) (rest : list event) :
    attachFails (EvHotAttachEndpoint c id (Some e) :: rest) e rest
| listMembersFails (ns : string) (e : error) (rest : list event) :
    attachFails (EvGetNamespaceEndpointIds ns (inr e) :: rest) e rest
| namespaceAddFails (ns id : string) (ids : list string) (e : error)
                    (rest : list event) :
    attachFails (EvGetNamespaceEndpointIds ns (inl ids)
                   :: EvAddNamespaceEndpoint ns id (Some e) :: rest) e rest.

(** The service CIDR as a list of exceptions: empty when none is configured. *)
Definition serviceException (nw : Network) : list string :=
  if String.eqb (ServiceCIDR nw) "" then [] else [ServiceCIDR nw].

Definition isRoutePolicy (p : Policy) : bool :=
  match p with
  | hnsRoutePolicy _ _ => true
  | OutboundNatPolicy _ => false
  end.

(** The version check fails on the answer [r] of the version query. *)
Definition versionCheckFails (r : result HNSGlobals) : Prop :=
  match r with
  | inr _ => True
  | inl g => supported (Version g) = false
  end.

(** The reading of C5 on network creation: a network asked for in a bridge
    namespace other than the host's is turned down with no call made. *)
Definition noCallBeforeBridgeValidation {netlib : NetLib} {W : Type}
           (h : handler W) (w : W) (nw : Network) : Prop :=
  BridgeNetNSPath nw <> "" ->
  trace_of (run h (FindOrCreateNetwork nw) w) = [].

(** The legacy attach and detach calls by container identifier. *)
Definition isLegacyCall (ev : event) : bool :=
  match ev with
  | EvHotAttachEndpoint _ _ _ | EvHotDetachEndpoint _ _ _ => true
  | _ => false
  end.

(** The calls on the members of a namespace. *)
Definition isNamespaceCall (ev : event) : bool :=
  match ev with
  | EvGetNamespaceEndpointIds _ _ | EvAddNamespaceEndpoint _ _ _
  | EvRemoveNamespaceEndpoint _ _ _ => true
  | _ => false
  end.

(** The calls [FindOrCreateNetwork] can make: the version query, the lookup
    of a network by name, and a request on the network collection. *)
Definition isNetworkCall (ev : event) : bool :=
  match ev with
  | EvGetHNSGlobals _ | EvGetHNSNetworkByName _ _
  | EvHNSNetworkRequest _ _ _ _ => true
  | _ => false
  end.

(** A request on a collection with the given method. *)
Definition hasMethod (method : string) (ev : event) : bool :=
  match ev with
  | EvHNSNetworkRequest m _ _ _ | EvHNSEndpointRequest m _ _ _ =>
      String.eqb m method
  | _ => false
  end.


(** A network whose interface has no allocated subnet address. *)
Definition nwNoAddress : Network :=
  {| Name := "vpc"; BridgeNetNSPath := ""; SharedENI := eni0;
     ENIIPAddresses := [];
     GatewayIPAddress := ipv4 x0a x00 x00 x01;
     VPCCIDRs := None; ServiceCIDR := "";
     DNSSuffixSearchList := []; DNSServers := [] |}.

(** A host on which the network of [nwPlain] exists. *)
Definition hostWithNetwork : Service.state :=
  Eval vm_compute in
    state_of (run Service.serve (FindOrCreateNetwork nwPlain) Service.fresh).

(** A control service that is down: every call is answered by an error. *)
Definition unavailable : handler unit :=
  fun X c =>
    match c in hnsCall X return unit -> X * unit with
    | GetHNSGlobals => fun w => (inr (ErrService "HNS is unavailable"), w)
    | GetHNSNetworkByName _ => fun w => (inr (ErrService "HNS is unavailable"), w)
    | HNSNetworkRequest _ _ _ => fun w => (inr (ErrService "HNS is unavailable"), w)
    | GetHNSEndpointByName _ => fun w => (inr (ErrService "HNS is unavailable"), w)
    | HNSEndpointRequest _ _ _ => fun w => (inr (ErrService "HNS is unavailable"), w)
    | HotAttachEndpoint _ _ => fun w => (Some (ErrService "HNS is unavailable"), w)
    | HotDetachEndpoint _ _ => fun w => (Some (ErrService "HNS is unavailable"), w)
    | GetNamespaceEndpointIds _ => fun w => (inr (ErrService "HNS is unavailable"), w)
    | AddNamespaceEndpoint _ _ => fun w => (Some (ErrService "HNS is unavailable"), w)
    | RemoveNamespaceEndpoint _ _ => fun w => (Some (ErrService "HNS is unavailable"), w)
    end.

(** The number of endpoints that the reference service stores under a
    name. *)
Definition countEndpoints (s : Service.state) (name : string) : nat :=
  length (filter (fun e => String.eqb (HNSEndpoint.Name e) name)
                 (Service.endpoints s)).

(** The state in which the reference service, from [s], stores [e] as a new
    endpoint attached to the container of [ep]. *)
Definition createdState (s : Service.state) (ep : Endpoint) (e : HNSEndpoint.t)
  : Service.state :=
  Service.with_attached
    (Service.with_endpoints s (Service.endpoints s ++ [e]) (Service.nextId s + 1))
    (Service.attached s ++ [(ContainerID ep, Service.freshId s)]).

(** * Properties *)

(** ** Strings *)

Lemma substring_prefix_app (p r : string) :
  substring 0 (String.length p) (p ++ r)%string = p.
Proof.
  induction p as [|c p IH]; simpl.
  - destruct r; reflexivity.
  - now rewrite IH.
Qed.

Lemma substring_all (r : string) : substring 0 (String.length r) r = r.
Proof.
  induction r as [|c r IH]; simpl; [reflexivity | now rewrite IH].
Qed.

Lemma substring_suffix_app (p r : string) :
  substring (String.length p) (String.length (p ++ r)%string - String.length p) (p ++ r)%string = r.
Proof.
  induction p as [|c p IH]; simpl.
  - rewrite Nat.sub_0_r. apply substring_all.
  - exact IH.
Qed.

Lemma length_app (p r : string) :
  String.length (p ++ r)%string = String.length p + String.length r.
Proof.
  induction p as [|c p IH]; simpl; [reflexivity | now rewrite IH].
Qed.

Lemma HasPrefix_app (p r : string) : strings.HasPrefix (p ++ r)%string p = true.
Proof.
  unfold strings.HasPrefix.
  rewrite substring_prefix_app, String.eqb_refl, andb_true_r.
  apply Nat.leb_le. rewrite length_app. lia.
Qed.

Lemma TrimPrefix_app (p r : string) : strings.TrimPrefix (p ++ r)%string p = r.
Proof.
  unfold strings.TrimPrefix. rewrite HasPrefix_app. apply substring_suffix_app.
Qed.

Lemma substring_prefix_inv (p s : string) :
  substring 0 (String.length p) s = p -> exists r, s = (p ++ r)%string.
Proof.
  revert s. induction p as [|c p IH]; intros s H.
  - exists s. reflexivity.
  - destruct s as [|d s]; simpl in H; [discriminate|].
    injection H as -> H. destruct (IH _ H) as [r ->].
    exists r. reflexivity.
Qed.

Lemma HasPrefix_inv (s p : string) :
  strings.HasPrefix s p = true -> exists r, s = (p ++ r)%string.
Proof.
  unfold strings.HasPrefix. intros H.
  apply andb_true_iff in H as [_ H]. apply String.eqb_eq in H.
  now apply substring_prefix_inv.
Qed.

(** ** C3: the namespace classifier *)

(** C3.  The classifier is a function of the namespace reference and the
    container identifier alone, with three cases: the empty string and
    "none" give Infra with the container identifier; "container:" followed
    by [id] gives App with [id]; any other string gives NamespaceHandle with
    the string itself. *)
Theorem namespace_classifier_cases (ep : Endpoint) :
  (NetNSName ep = "" \/ NetNSName ep = "none" ->
   getNamespaceIdentifier ep = (infraContainerNS, ContainerID ep))
  /\ (forall id, NetNSName ep = (containerPrefix ++ id)%string ->
      getNamespaceIdentifier ep = (appContainerNS, id))
  /\ (NetNSName ep <> "" -> NetNSName ep <> "none" ->
      (forall id, NetNSName ep <> (containerPrefix ++ id)%string) ->
      getNamespaceIdentifier ep = (hcnNamespace, NetNSName ep))
  /\ (forall ep', NetNSName ep' = NetNSName ep -> ContainerID ep' = ContainerID ep ->
      getNamespaceIdentifier ep' = getNamespaceIdentifier ep).
Proof.
  unfold getNamespaceIdentifier. repeat split.
  - intros [-> | ->]; reflexivity.
  - intros id ->.
    replace (String.eqb (containerPrefix ++ id) "none") with false by reflexivity.
    replace (String.eqb (containerPrefix ++ id) "") with false by reflexivity.
    now rewrite HasPrefix_app, TrimPrefix_app.
  - intros Hne Hnone Hpre.
    destruct (String.eqb_spec (NetNSName ep) "none") as [E|_]; [contradiction|].
    destruct (String.eqb_spec (NetNSName ep) "") as [E|_]; [contradiction|].
    simpl. destruct (strings.HasPrefix (NetNSName ep) containerPrefix) eqn:P.
    + apply HasPrefix_inv in P as [r P]. now apply Hpre in P.
    + reflexivity.
  - intros ep' -> ->. reflexivity.
Qed.

Lemma namespace_classifier_cases_witness :
  getNamespaceIdentifier (mkEndpoint "c1" "none" [addr1]) = (infraContainerNS, "c1")
  /\ getNamespaceIdentifier (mkEndpoint "c1" "" [addr1]) = (infraContainerNS, "c1")
  /\ getNamespaceIdentifier (mkEndpoint "c2" "container:abc" [addr1])
     = (appContainerNS, "abc")
  /\ getNamespaceIdentifier (mkEndpoint "c3" "ns-123" [addr1])
     = (hcnNamespace, "ns-123").
Proof.
  split; [|split; [|split]].
  - apply (proj1 (namespace_classifier_cases (mkEndpoint "c1" "none" [addr1]))).
    right. reflexivity.
  - apply (proj1 (namespace_classifier_cases (mkEndpoint "c1" "" [addr1]))).
    left. reflexivity.
  - apply (proj1 (proj2 (namespace_classifier_cases
                           (mkEndpoint "c2" "container:abc" [addr1])))).
    reflexivity.
  - apply (proj1 (proj2 (proj2 (namespace_classifier_cases
                                  (mkEndpoint "c3" "ns-123" [addr1]))))).
    + discriminate.
    + discriminate.
    + intros id H. simpl in H. discriminate H.
Defined.

(** ** C7: the version gate *)

Lemma supported_lex (v : HNSVersion) :
  supported v = false <-> versionLt v hnsMinVersion.
Proof.
  unfold supported, versionLt.
  destruct (Z.gtb_spec (Major v) (Major hnsMinVersion));
    destruct (Z.eqb_spec (Major v) (Major hnsMinVersion));
    destruct (Z.geb_spec (Minor v) (Minor hnsMinVersion));
    cbn [orb andb]; split; intros; try discriminate; try lia.
Qed.

(** C7.  Whatever version the control service reports, the gate rejects it
    with an error when it is lexicographically below the minimum (smaller
    major, or equal major and smaller minor) and accepts it otherwise, the
    minimum itself included. *)
Theorem version_gate_lexicographic
        (W : Type) (h : handler W) (w w' : W) (g : HNSGlobals) :
  h _ GetHNSGlobals w = (inl g, w') ->
  (versionLt (Version g) hnsMinVersion ->
   run h checkHNSVersion w
   = (Returned (Some (Errorf "HNS is older than the minimum supported version %v"
                             [ArgVersion hnsMinVersion])),
      w', [EvGetHNSGlobals (inl g)]))
  /\ (~ versionLt (Version g) hnsMinVersion ->
      run h checkHNSVersion w = (Returned None, w', [EvGetHNSGlobals (inl g)]))
  /\ (Version g = hnsMinVersion ->
      run h checkHNSVersion w = (Returned None, w', [EvGetHNSGlobals (inl g)])).
Proof.
  intros Hg.
  assert (Hrun : run h checkHNSVersion w
                 = (Returned (if negb (supported (Version g))
                              then Some (Errorf "HNS is older than the minimum supported version %v"
                                                [ArgVersion hnsMinVersion])
                              else None),
                    w', [EvGetHNSGlobals (inl g)])).
  { simpl. rewrite Hg. simpl. destruct (supported (Version g)); reflexivity. }
  rewrite Hrun. repeat split.
  - intros Hlt. apply supported_lex in Hlt. now rewrite Hlt.
  - intros Hge. destruct (supported (Version g)) eqn:S; [reflexivity|].
    apply supported_lex in S. contradiction.
  - intros ->. reflexivity.
Qed.

Lemma version_gate_lexicographic_witness :
  run Service.serve checkHNSVersion oldService
  = (Returned (Some (Errorf "HNS is older than the minimum supported version %v"
                            [ArgVersion hnsMinVersion])),
     oldService, [EvGetHNSGlobals (inl {| Version := {| Major := 7; Minor := 1 |} |})])
  /\ run Service.serve checkHNSVersion Service.fresh
     = (Returned None, Service.fresh,
        [EvGetHNSGlobals (inl {| Version := hnsMinVersion |})]).
Proof.
  split.
  - apply (proj1 (@version_gate_lexicographic _ Service.serve oldService oldService
                    {| Version := {| Major := 7; Minor := 1 |} |} eq_refl)).
    unfold versionLt. simpl. lia.
  - apply (proj2 (proj2 (@version_gate_lexicographic _ Service.serve
                           Service.fresh Service.fresh
                           {| Version := hnsMinVersion |} eq_refl))).
    reflexivity.
Defined.

(** ** Running the builder *)

(** Names, parsed addresses and request bodies stay folded while a run is
    computed. *)
Arguments generateHNSEndpointName : simpl never.
Arguments generateHNSNetworkName : simpl never.
Arguments parsedMAC : simpl never.
Arguments set_MACAddress : simpl never.
Arguments fatalDetachError : simpl never.
Arguments supported : simpl never.

(** Replace the handler's answers by the ones assumed in the context, and
    compute. *)
Ltac answer :=
  repeat match goal with
         | H : ?h ?X ?c ?w = _ |- context [?h ?X ?c ?w] => rewrite H; cbn
         end.

(** Case analysis on the next answer of a handler. *)
Ltac ask h :=
  match goal with
  | |- context [h ?X ?c ?w] =>
      let x := fresh "x" in
      let w' := fresh "w" in
      let E := fresh "E" in
      destruct (h X c w) as [x w'] eqn:E; cbn
  end.

Section Validation.

Context {netlib : NetLib}.

Lemma unsupportedAddresses_many (ep : Endpoint) :
  (1 < length (IPAddresses ep))%nat -> unsupportedAddresses ep = Ret true.
Proof.
  intros H. unfold unsupportedAddresses.
  apply Nat.ltb_lt in H. now rewrite H.
Qed.

Lemma unsupportedAddresses_single (ep : Endpoint) (a : IPNet) :
  IPAddresses ep = [a] ->
  unsupportedAddresses ep = Ret (isNil (To4 (IPNet_IP a))).
Proof.
  intros H. unfold unsupportedAddresses. rewrite H. reflexivity.
Qed.

Lemma unsupportedAddresses_none (ep : Endpoint) :
  IPAddresses ep = [] ->
  unsupportedAddresses ep = Panic "runtime error: index out of range".
Proof.
  intros H. unfold unsupportedAddresses. rewrite H. reflexivity.
Qed.

Lemma rejected_without_call (nw : Network) (ep : Endpoint) :
  unsupportedAddresses ep = Ret true ->
  FindOrCreateEndpoint nw ep = Ret (ep, Some errUnsupportedAddresses).
Proof.
  intros H. unfold FindOrCreateEndpoint. rewrite H. reflexivity.
Qed.

(** C8.  An endpoint with more than one allocated address, or with a
    single address that is not IPv4, is rejected with the validation error
    and without any call to the control service: the program is a bare
    return, and its run against any service leaves the state unchanged
    with an empty trace. *)
Theorem endpoint_create_rejects_bad_addresses (nw : Network) (ep : Endpoint) :
  ((1 < length (IPAddresses ep))%nat
   \/ exists a, IPAddresses ep = [a] /\ To4 (IPNet_IP a) = None) ->
  FindOrCreateEndpoint nw ep = Ret (ep, Some errUnsupportedAddresses)
  /\ forall (W : Type) (h : handler W) (w : W),
      run h (FindOrCreateEndpoint nw ep) w
      = (Returned (ep, Some errUnsupportedAddresses), w, []).
Proof.
  intros H.
  assert (E : FindOrCreateEndpoint nw ep = Ret (ep, Some errUnsupportedAddresses)).
  { apply rejected_without_call. destruct H as [H | (a & Ha & H4)].
    - now apply unsupportedAddresses_many.
    - rewrite (unsupportedAddresses_single _ _ Ha), H4. reflexivity. }
  split; [exact E|]. intros W h w. rewrite E. reflexivity.
Qed.

(** C9.  The address check indexes the first address whenever the list
    has at most one element: on an endpoint without any allocated address
    the call panics on the index, before any call to the control service,
    and so does not return the validation error. *)
Theorem endpoint_create_panics_without_address (nw : Network) (ep : Endpoint) :
  IPAddresses ep = [] ->
  FindOrCreateEndpoint nw ep = Panic "runtime error: index out of range"
  /\ (forall (W : Type) (h : handler W) (w : W),
        run h (FindOrCreateEndpoint nw ep) w
        = (Panicked "runtime error: index out of range", w, []))
  /\ FindOrCreateEndpoint nw ep <> Ret (ep, Some errUnsupportedAddresses).
Proof.
  intros H.
  assert (E : FindOrCreateEndpoint nw ep = Panic "runtime error: index out of range").
  { unfold FindOrCreateEndpoint. now rewrite (unsupportedAddresses_none _ H). }
  rewrite E. repeat split. discriminate.
Qed.

End Validation.

Lemma endpoint_create_rejects_bad_addresses_witness :
  (forall (W : Type) (h : handler W) (w : W),
      run h (FindOrCreateEndpoint nwPlain (mkEndpoint "c1" "none" [addr1; addr2])) w
      = (Returned (mkEndpoint "c1" "none" [addr1; addr2],
                   Some errUnsupportedAddresses), w, []))
  /\ (forall (W : Type) (h : handler W) (w : W),
      run h (FindOrCreateEndpoint nwPlain (mkEndpoint "c1" "none" [addr6])) w
      = (Returned (mkEndpoint "c1" "none" [addr6],
                   Some errUnsupportedAddresses), w, [])).
Proof.
  split.
  - apply (@endpoint_create_rejects_bad_addresses
             IPv4Lib nwPlain (mkEndpoint "c1" "none" [addr1; addr2])).
    left. simpl. lia.
  - apply (@endpoint_create_rejects_bad_addresses
             IPv4Lib nwPlain (mkEndpoint "c1" "none" [addr6])).
    right. exists addr6. split; reflexivity.
Defined.

Lemma endpoint_create_panics_without_address_witness :
  FindOrCreateEndpoint nwPlain (mkEndpoint "c1" "none" [])
  = Panic "runtime error: index out of range".
Proof.
  apply (@endpoint_create_panics_without_address
           IPv4Lib nwPlain (mkEndpoint "c1" "none" [])).
  reflexivity.
Defined.

(** ** Endpoint lifecycle against an arbitrary control service *)

Section Lifecycle.

Context {netlib : NetLib}.
Variable W : Type.
Variable h : handler W.

(** C10.  When the endpoint already exists and the namespace classifies
    as App, the call makes the legacy hot-attach and then stores the MAC
    address of the existing endpoint in the [MACAddress] field whatever
    the attach answered: the caller gets the answer [r] of the attach as
    the error, and the field is written also when [r] is an error. *)
Theorem app_reattach_writes_mac
        (nw : Network) (ep : Endpoint) (a : IPNet) (id : string)
        (hnsEndpoint : HNSEndpoint.t) (r : option error) (w w1 w2 : W) :
  IPAddresses ep = [a] -> To4 (IPNet_IP a) <> None ->
  getNamespaceIdentifier ep = (appContainerNS, id) ->
  h _ (GetHNSEndpointByName (generateHNSEndpointName ep id)) w
  = (inl hnsEndpoint, w1) ->
  h _ (HotAttachEndpoint (ContainerID ep) (HNSEndpoint.Id hnsEndpoint)) w1
  = (r, w2) ->
  run h (FindOrCreateEndpoint nw ep) w
  = (Returned (set_MACAddress ep (parsedMAC (HNSEndpoint.MacAddress hnsEndpoint)), r),
     w2,
     [EvGetHNSEndpointByName (generateHNSEndpointName ep id) (inl hnsEndpoint);
      EvHotAttachEndpoint (ContainerID ep) (HNSEndpoint.Id hnsEndpoint) r]).
Proof.
  intros Ha H4 Hns Hget Hattach.
  unfold FindOrCreateEndpoint.
  rewrite (unsupportedAddresses_single _ _ Ha).
  destruct (To4 (IPNet_IP a)) as [ip4|]; [|contradiction].
  cbn. rewrite Hns. cbn. answer. reflexivity.
Qed.

(** The run of [DeleteEndpoint] once the endpoint is found, by namespace
    type. *)
Lemma delete_app_run (nw : Network) (ep : Endpoint) (id : string)
      (e : HNSEndpoint.t) (r : option error) (w w1 w2 : W) :
  getNamespaceIdentifier ep = (appContainerNS, id) ->
  h _ (GetHNSEndpointByName (generateHNSEndpointName ep id)) w = (inl e, w1) ->
  h _ (HotDetachEndpoint (ContainerID ep) (HNSEndpoint.Id e)) w1 = (r, w2) ->
  run h (DeleteEndpoint nw ep) w
  = (Returned (if fatalDetachError r then r else None), w2,
     [EvGetHNSEndpointByName (generateHNSEndpointName ep id) (inl e);
      EvHotDetachEndpoint (ContainerID ep) (HNSEndpoint.Id e) r]).
Proof.
  intros Hns Hget Hdetach. unfold DeleteEndpoint. rewrite Hns. cbn. answer.
  destruct (fatalDetachError r); reflexivity.
Qed.

Lemma delete_app_never_deletes (nw : Network) (ep : Endpoint) (id : string) (w : W) :
  getNamespaceIdentifier ep = (appContainerNS, id) ->
  forallb (fun ev => negb (isEndpointRequest ev))
          (trace_of (run h (DeleteEndpoint nw ep) w)) = true.
Proof.
  intros Hns. unfold DeleteEndpoint. rewrite Hns. cbn.
  ask h. destruct x as [e|err]; cbn; [|reflexivity].
  ask h. destruct (fatalDetachError x); reflexivity.
Qed.

(** C2.  On an endpoint that classifies as App, [DeleteEndpoint] never
    requests the deletion of an endpoint object, whatever the control
    service answers; and once the endpoint is found and the legacy hot-detach
    is done (it succeeds, or the container is already gone), the call
    returns success right after the detach.  On an endpoint that classifies
    as Infra the same detach is followed by the delete request for the
    endpoint; on one that classifies as NamespaceHandle the removal from the
    namespace, whatever it answers, is followed by the delete request.  In
    both cases the call returns the error of the delete request. *)
Theorem delete_endpoint_by_namespace_type
        (nw : Network) (ep : Endpoint) (id : string) :
  (getNamespaceIdentifier ep = (appContainerNS, id) ->
   forall w : W,
     forallb (fun ev => negb (isEndpointRequest ev))
             (trace_of (run h (DeleteEndpoint nw ep) w)) = true)
  /\ (forall (e : HNSEndpoint.t) (w w1 : W),
        h _ (GetHNSEndpointByName (generateHNSEndpointName ep id)) w = (inl e, w1) ->
        (getNamespaceIdentifier ep = (appContainerNS, id) ->
         forall r w2,
           h _ (HotDetachEndpoint (ContainerID ep) (HNSEndpoint.Id e)) w1 = (r, w2) ->
           fatalDetachError r = false ->
           run h (DeleteEndpoint nw ep) w
           = (Returned None, w2,
              [EvGetHNSEndpointByName (generateHNSEndpointName ep id) (inl e);
               EvHotDetachEndpoint (ContainerID ep) (HNSEndpoint.Id e) r]))
        /\ (getNamespaceIdentifier ep = (infraContainerNS, id) ->
            forall r w2 rd w3,
              h _ (HotDetachEndpoint (ContainerID ep) (HNSEndpoint.Id e)) w1 = (r, w2) ->
              fatalDetachError r = false ->
              h _ (HNSEndpointRequest "DELETE" (HNSEndpoint.Id e) None) w2 = (rd, w3) ->
              run h (DeleteEndpoint nw ep) w
              = (Returned (errorOf rd), w3,
                 [EvGetHNSEndpointByName (generateHNSEndpointName ep id) (inl e);
                  EvHotDetachEndpoint (ContainerID ep) (HNSEndpoint.Id e) r;
                  EvHNSEndpointRequest "DELETE" (HNSEndpoint.Id e) None rd]))
        /\ (getNamespaceIdentifier ep = (hcnNamespace, id) ->
            forall r w2 rd w3,
              h _ (RemoveNamespaceEndpoint id (HNSEndpoint.Id e)) w1 = (r, w2) ->
              h _ (HNSEndpointRequest "DELETE" (HNSEndpoint.Id e) None) w2 = (rd, w3) ->
              run h (DeleteEndpoint nw ep) w
              = (Returned (errorOf rd), w3,
                 [EvGetHNSEndpointByName (generateHNSEndpointName ep id) (inl e);
                  EvRemoveNamespaceEndpoint id (HNSEndpoint.Id e) r;
                  EvHNSEndpointRequest "DELETE" (HNSEndpoint.Id e) None rd]))).
Proof.
  split.
  - intros Hns w. now apply delete_app_never_deletes with (id := id).
  - intros e w w1 Hget. split; [|split].
    + intros Hns r w2 Hdetach Hok.
      rewrite (delete_app_run nw ep id e r w w1 w2 Hns Hget Hdetach), Hok.
      reflexivity.
    + intros Hns r w2 rd w3 Hdetach Hok Hdel.
      unfold DeleteEndpoint. rewrite Hns. cbn. answer. rewrite Hok. cbn. answer.
      destruct rd; reflexivity.
    + intros Hns r w2 rd w3 Hremove Hdel.
      unfold DeleteEndpoint. rewrite Hns. cbn. answer.
      destruct rd; reflexivity.
Qed.

End Lifecycle.

Lemma app_reattach_writes_mac_witness :
  outcome_of (run Service.serve
                  (FindOrCreateEndpoint nwPlain (mkEndpoint "c9" "container:c1" [addr1]))
                  hostWithEndpoint)
  = Returned ({| ContainerID := "c9"; NetNSName := "container:c1";
                 IPAddresses := [addr1];
                 MACAddress := [x00; x15; x5d; x00; x00; x01] |},
              Some ErrComputeSystemDoesNotExist).
Proof.
  refine (f_equal outcome_of
            (@app_reattach_writes_mac IPv4Lib _ Service.serve nwPlain
               (mkEndpoint "c9" "container:c1" [addr1]) addr1 "c1"
               _ _ hostWithEndpoint _ _ eq_refl _ eq_refl eq_refl eq_refl)).
  discriminate.
Defined.

Lemma delete_endpoint_by_namespace_type_witness :
  (outcome_of (run Service.serve
                   (DeleteEndpoint nwPlain (mkEndpoint "c9" "container:c1" [addr1]))
                   hostWithEndpoint) = Returned None
   /\ map isEndpointRequest
          (trace_of (run Service.serve
                         (DeleteEndpoint nwPlain (mkEndpoint "c9" "container:c1" [addr1]))
                         hostWithEndpoint)) = [false; false])
  /\ map isEndpointRequest
         (trace_of (run Service.serve
                        (DeleteEndpoint nwPlain (mkEndpoint "c1" "none" [addr1]))
                        hostWithEndpoint)) = [false; false; true]
  /\ map isEndpointRequest
         (trace_of (run Service.serve
                        (DeleteEndpoint nwPlain (mkEndpoint "c7" "ns-123" [addr1]))
                        hostWithNamespaceEndpoint)) = [false; false; true].
Proof.
  split; [|split].
  - destruct (proj2 (@delete_endpoint_by_namespace_type _ Service.serve nwPlain
                       (mkEndpoint "c9" "container:c1" [addr1]) "c1")
                    _ hostWithEndpoint _ eq_refl) as [Happ _].
    rewrite (Happ eq_refl _ _ eq_refl eq_refl). split; reflexivity.
  - destruct (proj2 (@delete_endpoint_by_namespace_type _ Service.serve nwPlain
                       (mkEndpoint "c1" "none" [addr1]) "c1")
                    _ hostWithEndpoint _ eq_refl) as (_ & Hinfra & _).
    rewrite (Hinfra eq_refl _ _ _ _ eq_refl eq_refl eq_refl). reflexivity.
  - destruct (proj2 (@delete_endpoint_by_namespace_type _ Service.serve nwPlain
                       (mkEndpoint "c7" "ns-123" [addr1]) "ns-123")
                    _ hostWithNamespaceEndpoint _ eq_refl) as (_ & _ & Hhcn).
    rewrite (Hhcn eq_refl _ _ _ _ eq_refl eq_refl). reflexivity.
Defined.

(** ** Traces *)

Lemma nil_eq_app_cons {A : Type} (pre : list A) (y : A) (post : list A) :
  [] = pre ++ y :: post -> False.
Proof. destruct pre; discriminate. Qed.

Lemma cons_eq_app_cons {A : Type} (x : A) (l pre : list A) (y : A) (post : list A) :
  x :: l = pre ++ y :: post ->
  (pre = [] /\ x = y /\ l = post)
  \/ (exists pre', pre = x :: pre' /\ l = pre' ++ y :: post).
Proof.
  destruct pre as [|p pre]; cbn; intros H; injection H as -> ->.
  - left. repeat split.
  - right. exists pre. split; reflexivity.
Qed.

(** Find where an event sits in a computed trace. *)
Ltac locate H :=
  repeat match type of H with
         | [] = _ ++ _ :: _ => exfalso; exact (nil_eq_app_cons _ _ _ H)
         | _ :: _ = _ ++ _ :: _ =>
             let E := fresh "E" in
             apply cons_eq_app_cons in H as [(-> & E & H) | (? & -> & H)];
             [try discriminate E; inversion E; subst; clear E |]
         end.

(** Follow every answer the control service can give. *)
Ltac explore h :=
  repeat (cbn;
          match goal with
          | |- context [h ?X ?c ?w] =>
              let x := fresh "x" in
              destruct (h X c w) as [x ?] eqn:?; destruct x
          | |- context [existsb ?f ?l] => destruct (existsb f l) eqn:?
          end);
  cbn.

(** The cases of the request built for a new endpoint. *)
Ltac build nw :=
  unfold snatExceptions;
  destruct (VPCCIDRs nw) as [?cidrs|];
  destruct (ENIIPAddresses nw) as [|?eni ?enis];
  destruct (String.eqb (ServiceCIDR nw) "") eqn:?; cbn.

Section Rollback.

Context {netlib : NetLib}.
Variable W : Type.
Variable h : handler W.

Theorem failed_attach_rolls_back
        (nw : Network) (ep : Endpoint) (w : W)
        (pre post rest : list event) (req : json HNSEndpoint.t)
        (resp : HNSEndpoint.t) (e : error) :
  trace_of (run h (FindOrCreateEndpoint nw ep) w)
  = pre ++ EvHNSEndpointRequest "POST" "" req (inl resp) :: post ->
  attachFails post e rest ->
  (exists rd, rest = [EvHNSEndpointRequest "DELETE" (HNSEndpoint.Id resp) None rd])
  /\ outcome_of (run h (FindOrCreateEndpoint nw ep) w) = Returned (ep, Some e).
Proof.
  unfold trace_of, outcome_of, FindOrCreateEndpoint, unsupportedAddresses.
  destruct (IPAddresses ep) as [|a [|b l]]; cbn;
    [intros H; locate H | | intros H; locate H].
  destruct (To4 (IPNet_IP a)); cbn; [|intros H; locate H].
  destruct (getNamespaceIdentifier ep) as [ns id]. cbn.
  ask h. destruct x as [found|err]; cbn.
  - destruct ns; explore h; intros H; locate H.
  - destruct ns; cbn; [build nw | intros H; locate H | build nw].
    all: explore h.
    all: intros H Hatt; locate H.
    all: inversion Hatt; subst.
    all: split; [eexists; reflexivity | reflexivity].
Qed.

End Rollback.

Lemma failed_attach_rolls_back_witness :
  outcome_of (run Service.serve (FindOrCreateEndpoint nwPlain epGone) Service.fresh)
  = Returned (epGone, Some ErrComputeSystemDoesNotExist).
Proof.
  refine (proj2 (@failed_attach_rolls_back IPv4Lib _ Service.serve nwPlain epGone
                   Service.fresh [_] _ _ _ _ _ eq_refl (hotAttachFails _ _ _ _))).
Defined.

(** ** C4: the exceptions of the OutboundNAT policy *)

Section PolicyComposer.

Context {netlib : NetLib}.
Variable W : Type.
Variable h : handler W.

(** C4.  Every create request that [FindOrCreateEndpoint] submits carries
    exactly one OutboundNAT policy, the first of its policies.  Its
    exception list is the subnet prefix of the interface's first address
    when no virtual-network CIDR list is configured, and otherwise the
    configured virtual-network CIDRs in their order; the service CIDR
    comes last when one is configured. *)
Theorem outbound_nat_exceptions
        (nw : Network) (ep : Endpoint) (w : W)
        (req : HNSEndpoint.t) (r : result HNSEndpoint.t) :
  In (EvHNSEndpointRequest "POST" "" (Some req) r)
     (trace_of (run h (FindOrCreateEndpoint nw ep) w)) ->
  exists exceptions routes,
    HNSEndpoint.Policies req = OutboundNatPolicy exceptions :: routes
    /\ forallb isRoutePolicy routes = true
    /\ (VPCCIDRs nw = None ->
        exists eniAddr others,
          ENIIPAddresses nw = eniAddr :: others
          /\ exceptions
             = [IPNet_String (GetSubnetPrefix eniAddr)] ++ serviceException nw)
    /\ (forall cidrs, VPCCIDRs nw = Some cidrs ->
        exceptions = map IPNet_String cidrs ++ serviceException nw).
Proof.
  unfold trace_of, FindOrCreateEndpoint, unsupportedAddresses, serviceException.
  destruct (IPAddresses ep) as [|a [|b l]]; cbn; [contradiction| |contradiction].
  destruct (To4 (IPNet_IP a)); cbn; [|contradiction].
  destruct (getNamespaceIdentifier ep) as [ns id]. cbn.
  ask h. destruct x as [found|err]; cbn.
  - destruct ns; explore h; intros H;
      repeat (destruct H as [H|H]; [discriminate H|]); contradiction.
  - destruct ns; cbn; [build nw | | build nw].
    all: explore h.
    all: intros H;
      repeat (destruct H as [H|H]; [try discriminate H|]); try contradiction.
    all: inversion H; subst; clear H.
    all: eexists; eexists; split; [reflexivity|]; split; [reflexivity|].
    all: split; [intros Hnil; try discriminate Hnil
                | intros ? Hcidrs; try discriminate Hcidrs].
    all: try (eexists; eexists; split; reflexivity).
    all: try (injection Hcidrs as <-; try rewrite app_nil_r; reflexivity).
Qed.

End PolicyComposer.

Lemma outbound_nat_exceptions_witness :
  (exists routes,
      HNSEndpoint.Policies reqPlain = OutboundNatPolicy ["10.0.0.0/24"] :: routes)
  /\ (exists routes,
         HNSEndpoint.Policies reqVPC
         = OutboundNatPolicy ["10.0.0.0/16"; "10.1.0.0/16"; "172.20.0.0/16"] :: routes).
Proof.
  split.
  - destruct (@outbound_nat_exceptions IPv4Lib _ Service.serve nwPlain
                (mkEndpoint "c1" "none" [addr1]) Service.fresh reqPlain _
                (or_intror (or_introl eq_refl)))
      as (exceptions & routes & Hpolicies & _ & Hnone & _).
    destruct (Hnone eq_refl) as (eniAddr & others & Heni & Hexceptions).
    injection Heni as <- <-.
    exists routes. rewrite Hpolicies, Hexceptions. reflexivity.
  - destruct (@outbound_nat_exceptions IPv4Lib _ Service.serve nwVPC
                (mkEndpoint "c1" "none" [addr1]) Service.fresh reqVPC _
                (or_intror (or_introl eq_refl)))
      as (exceptions & routes & Hpolicies & _ & _ & Hsome).
    exists routes. rewrite Hpolicies, (Hsome _ eq_refl). reflexivity.
Defined.

(** ** C5: what runs before the first call *)

Section NetworkLifecycle.

Context {netlib : NetLib}.
Variable W : Type.
Variable h : handler W.

(** C5, as the code has it.  In [FindOrCreateEndpoint] the address
    validation comes before any call to the control service.  In
    [FindOrCreateNetwork] the version query is itself the first call to
    the control service and precedes the validation of the bridge
    namespace; when the version check fails or the bridge namespace is not
    the host's, the call returns an error and the version query stays the
    only call made, so that no lookup or create request is issued before
    both checks have passed. *)
Theorem checks_precede_requests :
  (forall (nw : Network) (ep : Endpoint) (w : W),
      ((1 < length (IPAddresses ep))%nat
       \/ exists a, IPAddresses ep = [a] /\ To4 (IPNet_IP a) = None) ->
      run h (FindOrCreateEndpoint nw ep) w
      = (Returned (ep, Some errUnsupportedAddresses), w, []))
  /\ (forall (nw : Network) (w : W),
        exists rest,
          trace_of (run h (FindOrCreateNetwork nw) w)
          = EvGetHNSGlobals (fst (h _ GetHNSGlobals w)) :: rest
          /\ (versionCheckFails (fst (h _ GetHNSGlobals w))
              \/ BridgeNetNSPath nw <> "" ->
              rest = []
              /\ exists e,
                  outcome_of (run h (FindOrCreateNetwork nw) w)
                  = Returned (Some e))).
Proof.
  split.
  - intros nw ep w H.
    rewrite rejected_without_call; [reflexivity|].
    destruct H as [H | (a & Ha & H4)].
    + now apply unsupportedAddresses_many.
    + rewrite (unsupportedAddresses_single _ _ Ha), H4. reflexivity.
  - intros nw w. unfold trace_of, outcome_of, FindOrCreateNetwork. cbn.
    destruct (h _ GetHNSGlobals w) as [[g|err] w1]; cbn.
    + destruct (supported (Version g)) eqn:S; cbn.
      * destruct (String.eqb_spec (BridgeNetNSPath nw) "") as [B|B]; cbn.
        -- ask h.
           match goal with
           | |- context [run h ?p ?w] => destruct (run h p w) as [[? ?] ?]
           end.
           cbn. eexists. split; [reflexivity|].
           intros [F|F]; [discriminate F | contradiction].
        -- eexists. split; [reflexivity|]. intros _. split; [reflexivity|].
           eexists. reflexivity.
      * eexists. split; [reflexivity|]. intros _. split; [reflexivity|].
        eexists. reflexivity.
    + eexists. split; [reflexivity|]. intros _. split; [reflexivity|].
      eexists. reflexivity.
Qed.

(** The run of [FindOrCreateNetwork] that finds the network. *)
Lemma network_found_run (nw : Network) (w w1 w2 : W)
      (g : HNSGlobals) (n : HNSNetwork.t) :
  h _ GetHNSGlobals w = (inl g, w1) ->
  supported (Version g) = true ->
  BridgeNetNSPath nw = "" ->
  h _ (GetHNSNetworkByName (generateHNSNetworkName nw)) w1 = (inl n, w2) ->
  run h (FindOrCreateNetwork nw) w
  = (Returned None, w2,
     [EvGetHNSGlobals (inl g);
      EvGetHNSNetworkByName (generateHNSNetworkName nw) (inl n)]).
Proof.
  intros Hg Hs Hb Hn. unfold FindOrCreateNetwork. cbn. answer.
  rewrite Hs, Hb. cbn. answer. reflexivity.
Qed.

End NetworkLifecycle.

(** C5 as stated fails: on a host at a supported version, asking for a
    network in another bridge namespace makes the version query before the
    request is turned down. *)
Lemma version_query_precedes_validation :
  ~ noCallBeforeBridgeValidation Service.serve Service.fresh nwOtherNS.
Proof.
  intros H.
  assert (E : trace_of (run Service.serve (FindOrCreateNetwork nwOtherNS) Service.fresh)
              = []) by (apply H; discriminate).
  vm_compute in E. discriminate E.
Qed.

Lemma checks_precede_requests_witness :
  run Service.serve
      (FindOrCreateEndpoint nwPlain (mkEndpoint "c1" "none" [addr1; addr2]))
      Service.fresh
  = (Returned (mkEndpoint "c1" "none" [addr1; addr2], Some errUnsupportedAddresses),
     Service.fresh, [])
  /\ (exists rest,
         trace_of (run Service.serve (FindOrCreateNetwork nwOtherNS) Service.fresh)
         = EvGetHNSGlobals (inl {| Version := hnsMinVersion |}) :: rest
         /\ rest = []).
Proof.
  split.
  - apply (proj1 (@checks_precede_requests IPv4Lib _ Service.serve)).
    left. simpl. lia.
  - destruct (proj2 (@checks_precede_requests IPv4Lib _ Service.serve)
                    nwOtherNS Service.fresh) as (rest & Htrace & Hfail).
    exists rest. split; [exact Htrace|].
    apply Hfail. right. discriminate.
Defined.

(** ** C6: network creation is idempotent *)

Lemma find_none_app {A : Type} (f : A -> bool) (l l' : list A) :
  find f l = None -> find f (l ++ l') = find f l'.
Proof.
  induction l as [|x l IH]; cbn; [reflexivity|].
  destruct (f x); [discriminate | exact IH].
Qed.

Lemma find_none_filter {A : Type} (f : A -> bool) (l : list A) :
  find f l = None -> filter f l = [].
Proof.
  induction l as [|x l IH]; cbn; [reflexivity|].
  destruct (f x); [discriminate | exact IH].
Qed.

Lemma find_some_filter {A : Type} (f : A -> bool) (l : list A) (x : A) :
  find f l = Some x -> (1 <= length (filter f l))%nat.
Proof.
  induction l as [|y l IH]; cbn; [discriminate|].
  destruct (f y); cbn; [lia | exact IH].
Qed.

Section ReferenceNetwork.

Context {netlib : NetLib}.
Variable s : Service.state.
Variable nw : Network.

Hypothesis version_supported : supported (Service.version s) = true.
Hypothesis host_namespace : BridgeNetNSPath nw = "".

(** On the reference service, a call that finds the network changes
    nothing. *)
Lemma reference_network_found (n : HNSNetwork.t) :
  Service.networkByName s (generateHNSNetworkName nw) = Some n ->
  run Service.serve (FindOrCreateNetwork nw) s
  = (Returned None, s,
     [EvGetHNSGlobals (inl {| Version := Service.version s |});
      EvGetHNSNetworkByName (generateHNSNetworkName nw) (inl n)]).
Proof.
  intros Hfound.
  apply network_found_run with (w1 := s); cbn; try assumption; try reflexivity.
  now rewrite Hfound.
Qed.

(** On the reference service, a call that does not find the network
    stores it under the computed name. *)
Lemma reference_network_created (a : IPNet) (others : list IPNet) :
  ENIIPAddresses nw = a :: others ->
  Service.networkByName s (generateHNSNetworkName nw) = None ->
  exists n,
    HNSNetwork.Name n = generateHNSNetworkName nw
    /\ state_of (run Service.serve (FindOrCreateNetwork nw) s)
       = Service.with_networks s (Service.networks s ++ [n]) (Service.nextId s + 1)
    /\ outcome_of (run Service.serve (FindOrCreateNetwork nw) s) = Returned None.
Proof.
  intros Ha Hnone. unfold FindOrCreateNetwork. cbn.
  rewrite version_supported, host_namespace. cbn.
  rewrite Hnone. cbn. rewrite Ha. cbn.
  eexists. split; [|split; reflexivity]. reflexivity.
Qed.

End ReferenceNetwork.

(** C6.  Once the version gate and the bridge-namespace validation are
    passed, a call that finds a network under the computed name returns
    success after the version query and the lookup alone, with no create or
    other mutating request, whatever the control service.  On the reference
    service, two identical calls in a row both succeed, the second makes no
    mutating request and leaves the state as the first left it, and the
    networks under the computed name are exactly one when there was none
    before (and as many as before otherwise). *)
Theorem network_create_idempotent {netlib : NetLib} (nw : Network) :
  BridgeNetNSPath nw = "" ->
  (forall (W : Type) (h : handler W) (w w1 w2 : W) (g : HNSGlobals) (n : HNSNetwork.t),
      h _ GetHNSGlobals w = (inl g, w1) ->
      supported (Version g) = true ->
      h _ (GetHNSNetworkByName (generateHNSNetworkName nw)) w1 = (inl n, w2) ->
      run h (FindOrCreateNetwork nw) w
      = (Returned None, w2,
         [EvGetHNSGlobals (inl g);
          EvGetHNSNetworkByName (generateHNSNetworkName nw) (inl n)]))
  /\ (forall s : Service.state,
        supported (Service.version s) = true ->
        ENIIPAddresses nw <> [] ->
        outcome_of (run Service.serve (FindOrCreateNetwork nw) s) = Returned None
        /\ outcome_of (run Service.serve (FindOrCreateNetwork nw)
                           (state_of (run Service.serve (FindOrCreateNetwork nw) s)))
           = Returned None
        /\ existsb isMutation
             (trace_of (run Service.serve (FindOrCreateNetwork nw)
                            (state_of (run Service.serve (FindOrCreateNetwork nw) s))))
           = false
        /\ state_of (run Service.serve (FindOrCreateNetwork nw)
                         (state_of (run Service.serve (FindOrCreateNetwork nw) s)))
           = state_of (run Service.serve (FindOrCreateNetwork nw) s)
        /\ Service.countNetworks
             (state_of (run Service.serve (FindOrCreateNetwork nw) s))
             (generateHNSNetworkName nw)
           = Nat.max 1 (Service.countNetworks s (generateHNSNetworkName nw))).
Proof.
  intros Hhost. split.
  - intros W h w w1 w2 g n Hg Hs Hn. now apply network_found_run with (w1 := w1).
  - intros s Hs Heni.
    destruct (Service.networkByName s (generateHNSNetworkName nw)) as [n|] eqn:Hfind.
    + rewrite (reference_network_found s nw Hs Hhost n Hfind).
      cbn [state_of outcome_of trace_of fst snd].
      rewrite (reference_network_found s nw Hs Hhost n Hfind).
      cbn [state_of outcome_of trace_of fst snd].
      repeat split.
      apply find_some_filter in Hfind. unfold Service.countNetworks. lia.
    + destruct (ENIIPAddresses nw) as [|a others] eqn:Ha; [contradiction|].
      destruct (reference_network_created s nw Hs Hhost a others Ha Hfind)
        as (n & Hname & Hstate & Hout).
      rewrite Hstate, Hout.
      assert (Hfound : Service.networkByName
                         (Service.with_networks s (Service.networks s ++ [n])
                                                (Service.nextId s + 1))
                         (generateHNSNetworkName nw) = Some n).
      { unfold Service.networkByName in *. cbn.
        rewrite (find_none_app _ _ _ Hfind). cbn.
        now rewrite Hname, String.eqb_refl. }
      rewrite (reference_network_found
                 (Service.with_networks s (Service.networks s ++ [n])
                                        (Service.nextId s + 1))
                 nw Hs Hhost n Hfound).
      cbn [state_of outcome_of trace_of fst snd].
      repeat split.
      unfold Service.countNetworks, Service.networkByName in *. cbn.
      rewrite filter_app, (find_none_filter _ _ Hfind). cbn.
      now rewrite Hname, String.eqb_refl.
Qed.

Lemma network_create_idempotent_witness :
  outcome_of (run Service.serve (FindOrCreateNetwork nwPlain) Service.fresh)
  = Returned None
  /\ outcome_of (run Service.serve (FindOrCreateNetwork nwPlain)
                     (state_of (run Service.serve (FindOrCreateNetwork nwPlain)
                                    Service.fresh)))
     = Returned None
  /\ Service.countNetworks
       (state_of (run Service.serve (FindOrCreateNetwork nwPlain)
                      (state_of (run Service.serve (FindOrCreateNetwork nwPlain)
                                     Service.fresh))))
       "vpcbr0a1b2c3d4e5f" = 1%nat.
Proof.
  destruct (proj2 (@network_create_idempotent IPv4Lib nwPlain eq_refl)
                  Service.fresh eq_refl)
    as (Hfirst & Hsecond & _ & Hstate & Hcount); [discriminate|].
  split; [exact Hfirst|]. split; [exact Hsecond|].
  rewrite Hstate. exact Hcount.
Defined.

(** * Further properties of the builder *)

(** Follow every answer of the control service, and the membership test of
    [attachEndpointV2], in a goal that speaks about the trace itself. *)
Ltac follow h :=
  repeat (cbn;
          match goal with
          | |- context [h ?X ?c ?w] =>
              let x := fresh "x" in
              destruct (h X c w) as [x ?] eqn:?; destruct x
          | |- context [existsb (String.eqb ?x) ?l] =>
              destruct (existsb (String.eqb x) l) eqn:?
          end);
  cbn.

(** Sort out the membership of an event in a computed trace. *)
Ltac pick H :=
  repeat (destruct H as [H|H]; [try discriminate H|]); try contradiction.

(** ** Network lifecycle *)

Section NetworkRequests.

Context {netlib : NetLib}.
Variable W : Type.
Variable h : handler W.

(** X1.  [DeleteNetwork] resolves the network by its computed name.  When the
    lookup fails the call returns the error of the lookup and requests no
    deletion; when it succeeds the call requests the deletion of the
    identifier that the lookup returned and returns what the request
    answers, error included. *)
Theorem delete_network_by_lookup (nw : Network) (w : W) :
  (forall err w1,
      h _ (GetHNSNetworkByName (generateHNSNetworkName nw)) w = (inr err, w1) ->
      run h (DeleteNetwork nw) w
      = (Returned (Some err), w1,
         [EvGetHNSNetworkByName (generateHNSNetworkName nw) (inr err)]))
  /\ (forall n w1 rd w2,
        h _ (GetHNSNetworkByName (generateHNSNetworkName nw)) w = (inl n, w1) ->
        h _ (HNSNetworkRequest "DELETE" (HNSNetwork.Id n) None) w1 = (rd, w2) ->
        run h (DeleteNetwork nw) w
        = (Returned (errorOf rd), w2,
           [EvGetHNSNetworkByName (generateHNSNetworkName nw) (inl n);
            EvHNSNetworkRequest "DELETE" (HNSNetwork.Id n) None rd])).
Proof.
  split.
  - intros err w1 Hget. unfold DeleteNetwork. cbn. answer. reflexivity.
  - intros n w1 rd w2 Hget Hdel. unfold DeleteNetwork. cbn. answer.
    destruct rd; reflexivity.
Qed.

(** X2.  Every create request of [FindOrCreateNetwork] is made for a network in
    the host namespace whose interface has an allocated address; it asks for
    an l2bridge network under the computed name on the adapter of the
    interface, with the single subnet of the interface's first address and
    the configured gateway, and the call returns what the request answers. *)
Theorem network_create_request
        (nw : Network) (w : W) (req : HNSNetwork.t) (r : result HNSNetwork.t) :
  In (EvHNSNetworkRequest "POST" "" (Some req) r)
     (trace_of (run h (FindOrCreateNetwork nw) w)) ->
  BridgeNetNSPath nw = ""
  /\ (exists eniAddr others,
        ENIIPAddresses nw = eniAddr :: others
        /\ req = {| HNSNetwork.Id := "";
                    HNSNetwork.Name := generateHNSNetworkName nw;
                    HNSNetwork.Type_ := "l2bridge";
                    HNSNetwork.NetworkAdapterName := GetLinkName (SharedENI nw);
                    HNSNetwork.Subnets :=
                      [ {| AddressPrefix := IPNet_String (GetSubnetPrefix eniAddr);
                           GatewayAddress := IP_String (GatewayIPAddress nw) |} ] |})
  /\ outcome_of (run h (FindOrCreateNetwork nw) w) = Returned (errorOf r).
Proof.
  unfold trace_of, outcome_of, FindOrCreateNetwork. cbn.
  ask h. destruct x as [g|err]; cbn; [|intros H; pick H].
  destruct (supported (Version g)); cbn; [|intros H; pick H].
  destruct (String.eqb_spec (BridgeNetNSPath nw) "") as [B|B]; cbn;
    [|intros H; pick H].
  ask h. destruct x as [n|err]; cbn; [intros H; pick H|].
  destruct (ENIIPAddresses nw) as [|a others]; cbn; [intros H; pick H|].
  ask h.
  destruct x; cbn; intros H; pick H; inversion H; subst; clear H;
    (split; [exact B|]; split; [exists a, others; split; reflexivity | reflexivity]).
Qed.

(** X3.  When the network does not exist yet and the interface has no allocated
    address, [FindOrCreateNetwork] panics on the index of the first address,
    after the version query and the lookup and before any create request. *)
Theorem network_create_panics_without_address
        (nw : Network) (w w1 w2 : W) (g : HNSGlobals) (err : error) :
  h _ GetHNSGlobals w = (inl g, w1) ->
  supported (Version g) = true ->
  BridgeNetNSPath nw = "" ->
  h _ (GetHNSNetworkByName (generateHNSNetworkName nw)) w1 = (inr err, w2) ->
  ENIIPAddresses nw = [] ->
  run h (FindOrCreateNetwork nw) w
  = (Panicked "runtime error: index out of range", w2,
     [EvGetHNSGlobals (inl g);
      EvGetHNSNetworkByName (generateHNSNetworkName nw) (inr err)]).
Proof.
  intros Hg Hs Hb Hn Ha. unfold FindOrCreateNetwork. cbn. answer.
  rewrite Hs, Hb. cbn. answer. rewrite Ha. reflexivity.
Qed.

(** X4.  A failure of the version query is returned unchanged by
    [checkHNSVersion] and by [FindOrCreateNetwork], which then makes no other
    call. *)
Theorem version_query_error_returned
        (nw : Network) (w w1 : W) (err : error) :
  h _ GetHNSGlobals w = (inr err, w1) ->
  run h checkHNSVersion w = (Returned (Some err), w1, [EvGetHNSGlobals (inr err)])
  /\ run h (FindOrCreateNetwork nw) w
     = (Returned (Some err), w1, [EvGetHNSGlobals (inr err)]).
Proof.
  intros Hg. split.
  - cbn. answer. reflexivity.
  - unfold FindOrCreateNetwork. cbn. answer. reflexivity.
Qed.

(** X5.  [FindOrCreateNetwork] makes at most three calls, all of them the version
    query, the lookup by name or a request on the network collection, and it
    never requests a deletion. *)
Theorem network_create_calls (nw : Network) (w : W) :
  forallb isNetworkCall (trace_of (run h (FindOrCreateNetwork nw) w)) = true
  /\ existsb (hasMethod "DELETE") (trace_of (run h (FindOrCreateNetwork nw) w))
     = false
  /\ (length (trace_of (run h (FindOrCreateNetwork nw) w)) <= 3)%nat.
Proof.
  unfold trace_of, FindOrCreateNetwork. cbn.
  ask h. destruct x as [g|err]; cbn; [|repeat split; lia].
  destruct (supported (Version g)); cbn; [|repeat split; lia].
  destruct (String.eqb (BridgeNetNSPath nw) ""); cbn; [|repeat split; lia].
  ask h. destruct x as [n|err]; cbn; [repeat split; lia|].
  destruct (ENIIPAddresses nw) as [|a others]; cbn; [repeat split; lia|].
  ask h. destruct x; cbn; repeat split; lia.
Qed.

End NetworkRequests.

(** ** Names and namespace references *)

Lemma TrimPrefix_restores (s p : string) :
  strings.HasPrefix s p = true -> (p ++ strings.TrimPrefix s p)%string = s.
Proof.
  intros H. destruct (HasPrefix_inv _ _ H) as [r ->].
  now rewrite TrimPrefix_app.
Qed.

Lemma HasPrefix_false (s p : string) :
  strings.HasPrefix s p = false -> forall r, s <> (p ++ r)%string.
Proof.
  intros H r ->. rewrite HasPrefix_app in H. discriminate H.
Qed.

(** X6.  The result of the classifier tells the shape of the namespace
    reference: Infra only for the empty string and "none", with the
    container identifier; App only for "container:" followed by the returned
    identifier, so that the reference is recovered from the identifier;
    NamespaceHandle only for a reference of neither shape, returned as it
    is. *)
Theorem namespace_reference_of_type (ep : Endpoint) :
  match getNamespaceIdentifier ep with
  | (infraContainerNS, id) =>
      (NetNSName ep = "" \/ NetNSName ep = "none") /\ id = ContainerID ep
  | (appContainerNS, id) => NetNSName ep = (containerPrefix ++ id)%string
  | (hcnNamespace, id) =>
      id = NetNSName ep /\ NetNSName ep <> "" /\ NetNSName ep <> "none"
      /\ forall x, NetNSName ep <> (containerPrefix ++ x)%string
  end.
Proof.
  unfold getNamespaceIdentifier.
  destruct (String.eqb_spec (NetNSName ep) "none") as [E|N]; cbn.
  - split; [now right | reflexivity].
  - destruct (String.eqb_spec (NetNSName ep) "") as [E|M]; cbn.
    + split; [now left | reflexivity].
    + destruct (strings.HasPrefix (NetNSName ep) containerPrefix) eqn:P.
      * symmetry. exact (TrimPrefix_restores _ _ P).
      * split; [reflexivity|]. split; [exact M|]. split; [exact N|].
        exact (HasPrefix_false _ _ P).
Qed.

Lemma classify_infra (ep : Endpoint) :
  NetNSName ep = "" \/ NetNSName ep = "none" ->
  getNamespaceIdentifier ep = (infraContainerNS, ContainerID ep).
Proof.
  unfold getNamespaceIdentifier. intros [-> | ->]; reflexivity.
Qed.

Lemma classify_app (ep : Endpoint) (id : string) :
  NetNSName ep = (containerPrefix ++ id)%string ->
  getNamespaceIdentifier ep = (appContainerNS, id).
Proof.
  unfold getNamespaceIdentifier. intros ->.
  replace (String.eqb (containerPrefix ++ id) "none") with false by reflexivity.
  replace (String.eqb (containerPrefix ++ id) "") with false by reflexivity.
  now rewrite HasPrefix_app, TrimPrefix_app.
Qed.

(** X7.  A container that refers to the namespace of an infra container by
    "container:" and the infra container's identifier gets the endpoint name
    of that infra container, provided the identifier is not empty: both
    calls resolve the same endpoint. *)
Theorem sibling_shares_endpoint_name (infra app : Endpoint) :
  (NetNSName infra = "" \/ NetNSName infra = "none") ->
  NetNSName app = (containerPrefix ++ ContainerID infra)%string ->
  ContainerID infra <> "" ->
  fst (getNamespaceIdentifier infra) = infraContainerNS
  /\ fst (getNamespaceIdentifier app) = appContainerNS
  /\ generateHNSEndpointName app (snd (getNamespaceIdentifier app))
     = generateHNSEndpointName infra (snd (getNamespaceIdentifier infra))
  /\ generateHNSEndpointName infra (snd (getNamespaceIdentifier infra))
     = ("cid-" ++ ContainerID infra)%string.
Proof.
  intros Hinfra Happ Hid.
  rewrite (classify_infra infra Hinfra), (classify_app app _ Happ). cbn [fst snd].
  unfold generateHNSEndpointName.
  destruct (String.eqb_spec (ContainerID infra) "") as [E|_]; [contradiction|].
  repeat split.
Qed.

(** X8.  With an empty identifier after "container:" the endpoint name falls
    back to the identifier of the calling container itself. *)
Theorem empty_sibling_reference_falls_back (ep : Endpoint) :
  NetNSName ep = containerPrefix ->
  getNamespaceIdentifier ep = (appContainerNS, "")
  /\ generateHNSEndpointName ep (snd (getNamespaceIdentifier ep))
     = ("cid-" ++ ContainerID ep)%string.
Proof.
  intros H.
  assert (E : getNamespaceIdentifier ep = (appContainerNS, "")).
  { unfold getNamespaceIdentifier. rewrite H. reflexivity. }
  rewrite E. split; reflexivity.
Qed.





(** ** Endpoint lifecycle: lookups, attachment and errors *)

Lemma fatalDetachError_iff (e : error) :
  fatalDetachError (Some e) = true <-> e <> ErrComputeSystemDoesNotExist.
Proof.
  unfold fatalDetachError. destruct e; cbn; split; intros H;
    try reflexivity; try discriminate; try contradiction.
Qed.

Section EndpointRequests.

Context {netlib : NetLib}.
Variable W : Type.
Variable h : handler W.

(** X10.  A container that shares the namespace of an infra container whose
    endpoint does not exist is turned down: the call returns an error that
    carries the endpoint name and the error of the lookup, makes no other
    call and leaves the endpoint value as it was. *)
Theorem app_without_endpoint_fails
        (nw : Network) (ep : Endpoint) (a : IPNet) (id : string)
        (err : error) (w w1 : W) :
  IPAddresses ep = [a] -> To4 (IPNet_IP a) <> None ->
  getNamespaceIdentifier ep = (appContainerNS, id) ->
  h _ (GetHNSEndpointByName (generateHNSEndpointName ep id)) w = (inr err, w1) ->
  run h (FindOrCreateEndpoint nw ep) w
  = (Returned (ep, Some (Errorf "failed to find endpoint %s: %v"
                                [ArgString (generateHNSEndpointName ep id);
                                 ArgError err])),
     w1,
     [EvGetHNSEndpointByName (generateHNSEndpointName ep id) (inr err)]).
Proof.
  intros Ha H4 Hns Hget. unfold FindOrCreateEndpoint.
  rewrite (unsupportedAddresses_single _ _ Ha).
  destruct (To4 (IPNet_IP a)); [|contradiction].
  cbn. rewrite Hns. cbn. answer. reflexivity.
Qed.

(** X11.  A repeated create for an Infra or NamespaceHandle container whose
    endpoint exists makes the lookup and nothing else: it returns success
    with the MAC address of the existing endpoint. *)
Theorem existing_endpoint_is_kept
        (nw : Network) (ep : Endpoint) (a : IPNet) (ns : nsType) (id : string)
        (e : HNSEndpoint.t) (w w1 : W) :
  IPAddresses ep = [a] -> To4 (IPNet_IP a) <> None ->
  getNamespaceIdentifier ep = (ns, id) -> ns <> appContainerNS ->
  h _ (GetHNSEndpointByName (generateHNSEndpointName ep id)) w = (inl e, w1) ->
  run h (FindOrCreateEndpoint nw ep) w
  = (Returned (set_MACAddress ep (parsedMAC (HNSEndpoint.MacAddress e)), None),
     w1,
     [EvGetHNSEndpointByName (generateHNSEndpointName ep id) (inl e)]).
Proof.
  intros Ha H4 Hns Happ Hget. unfold FindOrCreateEndpoint.
  rewrite (unsupportedAddresses_single _ _ Ha).
  destruct (To4 (IPNet_IP a)); [|contradiction].
  cbn. rewrite Hns. cbn. answer.
  destruct ns; [reflexivity | contradiction | reflexivity].
Qed.

(** X12.  [attachEndpointV2] first lists the members of the namespace.  A failed
    listing is returned as the error, with no add; an endpoint that is
    already a member is left alone and the call succeeds; otherwise the
    endpoint is added and the call returns what the add answers. *)
Theorem attach_v2_checks_membership
        (e : HNSEndpoint.t) (netNSName : string) (w : W) :
  (forall err w1,
      h _ (GetNamespaceEndpointIds netNSName) w = (inr err, w1) ->
      run h (attachEndpointV2 e netNSName) w
      = (Returned (Some err), w1, [EvGetNamespaceEndpointIds netNSName (inr err)]))
  /\ (forall ids w1,
        h _ (GetNamespaceEndpointIds netNSName) w = (inl ids, w1) ->
        In (HNSEndpoint.Id e) ids ->
        run h (attachEndpointV2 e netNSName) w
        = (Returned None, w1, [EvGetNamespaceEndpointIds netNSName (inl ids)]))
  /\ (forall ids w1 r w2,
        h _ (GetNamespaceEndpointIds netNSName) w = (inl ids, w1) ->
        ~ In (HNSEndpoint.Id e) ids ->
        h _ (AddNamespaceEndpoint netNSName (HNSEndpoint.Id e)) w1 = (r, w2) ->
        run h (attachEndpointV2 e netNSName) w
        = (Returned r, w2,
           [EvGetNamespaceEndpointIds netNSName (inl ids);
            EvAddNamespaceEndpoint netNSName (HNSEndpoint.Id e) r])).
Proof.
  split; [|split].
  - intros err w1 Hlist. cbn. answer. reflexivity.
  - intros ids w1 Hlist Hin. cbn. answer.
    replace (existsb (String.eqb (HNSEndpoint.Id e)) ids) with true; [reflexivity|].
    symmetry. apply existsb_exists. exists (HNSEndpoint.Id e).
    split; [exact Hin | apply String.eqb_refl].
  - intros ids w1 r w2 Hlist Hnot Hadd. cbn. answer.
    destruct (existsb (String.eqb (HNSEndpoint.Id e)) ids) eqn:E.
    + apply existsb_exists in E as (x & Hx & Heq).
      apply String.eqb_eq in Heq. subst x. contradiction.
    + cbn. answer. reflexivity.
Qed.

(** X13.  [DeleteEndpoint] gives up on its first failure: an endpoint that is not
    found returns the error of the lookup after that single call; on an
    Infra or App container a hot-detach that fails with anything but
    [ErrComputeSystemDoesNotExist] returns that error, and no delete request
    follows. *)
Theorem delete_endpoint_gives_up
        (nw : Network) (ep : Endpoint) (ns : nsType) (id : string) (w : W) :
  getNamespaceIdentifier ep = (ns, id) ->
  (forall err w1,
      h _ (GetHNSEndpointByName (generateHNSEndpointName ep id)) w = (inr err, w1) ->
      run h (DeleteEndpoint nw ep) w
      = (Returned (Some err), w1,
         [EvGetHNSEndpointByName (generateHNSEndpointName ep id) (inr err)]))
  /\ (ns <> hcnNamespace ->
      forall e w1 err w2,
        h _ (GetHNSEndpointByName (generateHNSEndpointName ep id)) w = (inl e, w1) ->
        h _ (HotDetachEndpoint (ContainerID ep) (HNSEndpoint.Id e)) w1
        = (Some err, w2) ->
        err <> ErrComputeSystemDoesNotExist ->
        run h (DeleteEndpoint nw ep) w
        = (Returned (Some err), w2,
           [EvGetHNSEndpointByName (generateHNSEndpointName ep id) (inl e);
            EvHotDetachEndpoint (ContainerID ep) (HNSEndpoint.Id e) (Some err)])).
Proof.
  intros Hns. split.
  - intros err w1 Hget. unfold DeleteEndpoint. rewrite Hns. cbn. answer.
    reflexivity.
  - intros Hlegacy e w1 err w2 Hget Hdetach Hfatal.
    apply fatalDetachError_iff in Hfatal.
    unfold DeleteEndpoint. rewrite Hns. cbn. answer.
    destruct ns; [| |contradiction]; cbn; answer; rewrite Hfatal; reflexivity.
Qed.

(** X14.  On the way to a new endpoint the builder reads the first address of the
    interface when no virtual-network CIDR list is configured, and when a
    service CIDR is configured: with an interface that has no allocated
    address the call then panics after the lookup, before any create
    request. *)
Theorem endpoint_create_panics_without_interface_address
        (nw : Network) (ep : Endpoint) (a : IPNet) (ns : nsType) (id : string)
        (err : error) (w w1 : W) :
  IPAddresses ep = [a] -> To4 (IPNet_IP a) <> None ->
  getNamespaceIdentifier ep = (ns, id) -> ns <> appContainerNS ->
  h _ (GetHNSEndpointByName (generateHNSEndpointName ep id)) w = (inr err, w1) ->
  ENIIPAddresses nw = [] ->
  VPCCIDRs nw = None \/ ServiceCIDR nw <> "" ->
  run h (FindOrCreateEndpoint nw ep) w
  = (Panicked "runtime error: index out of range", w1,
     [EvGetHNSEndpointByName (generateHNSEndpointName ep id) (inr err)]).
Proof.
  intros Ha H4 Hns Happ Hget Heni Hread. unfold FindOrCreateEndpoint.
  rewrite (unsupportedAddresses_single _ _ Ha).
  destruct (To4 (IPNet_IP a)); [|contradiction].
  cbn. rewrite Hns. cbn. answer. rewrite Ha. cbn.
  unfold snatExceptions. rewrite Heni.
  destruct (String.eqb_spec (ServiceCIDR nw) "") as [S|S];
    destruct (VPCCIDRs nw) as [cidrs|];
    destruct Hread as [Hv|Hs]; try discriminate; try contradiction;
    destruct ns; try contradiction; reflexivity.
Qed.

End EndpointRequests.

(** ** Endpoint lifecycle: what every run does *)

Section EndpointTraces.

Context {netlib : NetLib}.
Variable W : Type.
Variable h : handler W.

(** X15.  Every create request of [FindOrCreateEndpoint] is made for an Infra or
    NamespaceHandle container with a single IPv4 address.  The request has
    no identifier and no MAC address of its own, is named after the
    namespace identifier, names the network by its computed name, joins the
    DNS suffixes and servers with commas, and carries the address with the
    number of leading ones of its mask, reduced to eight bits, as the prefix
    length. *)
Theorem create_request_fields
        (nw : Network) (ep : Endpoint) (w : W)
        (req : HNSEndpoint.t) (r : result HNSEndpoint.t) :
  In (EvHNSEndpointRequest "POST" "" (Some req) r)
     (trace_of (run h (FindOrCreateEndpoint nw ep) w)) ->
  fst (getNamespaceIdentifier ep) <> appContainerNS
  /\ HNSEndpoint.Id req = "" /\ HNSEndpoint.MacAddress req = ""
  /\ HNSEndpoint.Name req
     = generateHNSEndpointName ep (snd (getNamespaceIdentifier ep))
  /\ HNSEndpoint.VirtualNetworkName req = generateHNSNetworkName nw
  /\ HNSEndpoint.DNSSuffix req = strings.Join (DNSSuffixSearchList nw) ","
  /\ HNSEndpoint.DNSServerList req = strings.Join (DNSServers nw) ","
  /\ exists a,
      IPAddresses ep = [a] /\ To4 (IPNet_IP a) <> None
      /\ HNSEndpoint.IPAddress req = IPNet_IP a
      /\ HNSEndpoint.PrefixLength req = (fst (IPMask_Size (IPNet_Mask a)) mod 256)%Z
      /\ (0 <= HNSEndpoint.PrefixLength req < 256)%Z.
Proof.
  unfold trace_of, FindOrCreateEndpoint, unsupportedAddresses.
  destruct (IPAddresses ep) as [|a [|b l]]; cbn; [contradiction| |contradiction].
  destruct (To4 (IPNet_IP a)) eqn:H4; cbn; [|contradiction].
  destruct (getNamespaceIdentifier ep) as [ns id]. cbn.
  ask h. destruct x as [found|err]; cbn.
  - destruct ns; explore h; intros H; pick H.
  - destruct ns; cbn; [build nw | | build nw].
    all: explore h.
    all: intros H; pick H.
    all: inversion H; subst; clear H.
    all: split; [discriminate|].
    all: repeat (split; [reflexivity|]).
    all: exists a; split; [reflexivity|]; split; [rewrite H4; discriminate|].
    all: split; [reflexivity|]; split; [reflexivity|].
    all: cbn; apply Z.mod_pos_bound; lia.
Qed.

(** X16.  The policies that follow the OutboundNAT policy in a create request:
    none when no service CIDR is configured; otherwise two routes that need
    encapsulation, the first to the service CIDR and the second to the
    first address of the interface as a /32 prefix. *)
Theorem create_request_routes
        (nw : Network) (ep : Endpoint) (w : W)
        (req : HNSEndpoint.t) (r : result HNSEndpoint.t) :
  In (EvHNSEndpointRequest "POST" "" (Some req) r)
     (trace_of (run h (FindOrCreateEndpoint nw ep) w)) ->
  (ServiceCIDR nw = "" -> tl (HNSEndpoint.Policies req) = [])
  /\ (ServiceCIDR nw <> "" ->
      exists eniAddr others,
        ENIIPAddresses nw = eniAddr :: others
        /\ tl (HNSEndpoint.Policies req)
           = [hnsRoutePolicy (ServiceCIDR nw) true;
              hnsRoutePolicy (IP_String (IPNet_IP eniAddr) ++ "/32") true]).
Proof.
  unfold trace_of, FindOrCreateEndpoint, unsupportedAddresses.
  destruct (IPAddresses ep) as [|a [|b l]]; cbn; [contradiction| |contradiction].
  destruct (To4 (IPNet_IP a)) eqn:H4; cbn; [|contradiction].
  destruct (getNamespaceIdentifier ep) as [ns id]. cbn.
  ask h. destruct x as [found|err]; cbn.
  - destruct ns; explore h; intros H; pick H.
  - destruct ns; cbn; [build nw | | build nw].
    all: explore h.
    all: intros H; pick H.
    all: inversion H; subst; clear H.
    all: match goal with
         | E : String.eqb _ _ = true |- _ => apply String.eqb_eq in E
         | E : String.eqb _ _ = false |- _ => apply String.eqb_neq in E
         end.
    all: split; [intros S; try contradiction; reflexivity
                | intros S; try contradiction].
    all: eexists; eexists; split; reflexivity.
Qed.

(** X17.  When a new endpoint is created and the call succeeds, the endpoint was
    attached right after the create and the MAC address returned is the one
    of the created endpoint.  For an Infra container the attach is the
    legacy hot-attach of the created endpoint to the container; for a
    NamespaceHandle it is the listing of the namespace members, followed by
    the add of the created endpoint unless the listing already has it. *)
Theorem new_endpoint_is_attached
        (nw : Network) (ep ep' : Endpoint) (w : W)
        (pre post : list event) (req : json HNSEndpoint.t) (resp : HNSEndpoint.t) :
  trace_of (run h (FindOrCreateEndpoint nw ep) w)
  = pre ++ EvHNSEndpointRequest "POST" "" req (inl resp) :: post ->
  outcome_of (run h (FindOrCreateEndpoint nw ep) w) = Returned (ep', None) ->
  ep' = set_MACAddress ep (parsedMAC (HNSEndpoint.MacAddress resp))
  /\ match fst (getNamespaceIdentifier ep) with
     | infraContainerNS =>
         post = [EvHotAttachEndpoint (ContainerID ep) (HNSEndpoint.Id resp) None]
     | hcnNamespace =>
         exists ids,
           post = EvGetNamespaceEndpointIds (snd (getNamespaceIdentifier ep)) (inl ids)
                    :: (if existsb (String.eqb (HNSEndpoint.Id resp)) ids then []
                        else [EvAddNamespaceEndpoint
                                (snd (getNamespaceIdentifier ep))
                                (HNSEndpoint.Id resp) None])
     | appContainerNS => False
     end.
Proof.
  unfold trace_of, outcome_of, FindOrCreateEndpoint, unsupportedAddresses.
  destruct (IPAddresses ep) as [|a [|b l]]; cbn;
    [intros H; locate H | | intros H; locate H].
  destruct (To4 (IPNet_IP a)); cbn; [|intros H; locate H].
  destruct (getNamespaceIdentifier ep) as [ns id]. cbn.
  ask h. destruct x as [found|err]; cbn.
  - destruct ns; explore h; intros H; locate H.
  - destruct ns; cbn; [build nw | intros H; locate H | build nw].
    all: explore h.
    all: intros H Hout; locate H.
    all: try discriminate Hout.
    all: injection Hout as <-.
    all: split; [reflexivity|].
    all: try reflexivity.
    all: eexists;
      match goal with
      | E : existsb _ _ = _ |- _ => rewrite E
      end; reflexivity.
Qed.

(** X18.  The protocols are kept apart.  A NamespaceHandle endpoint is never
    attached or detached by container identifier, neither on create nor on
    delete; an Infra or App endpoint never touches the members of a
    namespace; and the create call of an App container never requests the
    creation or the deletion of an endpoint object. *)
Theorem attachment_protocols_do_not_mix (nw : Network) (ep : Endpoint) (w : W) :
  (fst (getNamespaceIdentifier ep) = hcnNamespace ->
   existsb isLegacyCall (trace_of (run h (FindOrCreateEndpoint nw ep) w)) = false
   /\ existsb isLegacyCall (trace_of (run h (DeleteEndpoint nw ep) w)) = false)
  /\ (fst (getNamespaceIdentifier ep) <> hcnNamespace ->
      existsb isNamespaceCall (trace_of (run h (FindOrCreateEndpoint nw ep) w)) = false
      /\ existsb isNamespaceCall (trace_of (run h (DeleteEndpoint nw ep) w)) = false)
  /\ (fst (getNamespaceIdentifier ep) = appContainerNS ->
      existsb isEndpointRequest (trace_of (run h (FindOrCreateEndpoint nw ep) w))
      = false).
Proof.
  unfold trace_of, DeleteEndpoint, FindOrCreateEndpoint, unsupportedAddresses.
  destruct (getNamespaceIdentifier ep) as [ns id]. cbn [fst].
  split; [|split]; intros Hns.
  - subst ns. split.
    + destruct (IPAddresses ep) as [|a [|b l]]; cbn; try reflexivity.
      destruct (To4 (IPNet_IP a)); cbn; [|reflexivity].
      ask h. destruct x as [found|err]; cbn; [reflexivity|].
      build nw; follow h; reflexivity.
    + follow h; reflexivity.
  - split.
    + destruct (IPAddresses ep) as [|a [|b l]]; cbn; try reflexivity.
      destruct (To4 (IPNet_IP a)); cbn; [|reflexivity].
      ask h. destruct x as [found|err]; cbn.
      * destruct ns; try contradiction; follow h; reflexivity.
      * destruct ns; try contradiction; cbn; try reflexivity.
        build nw; follow h; reflexivity.
    + destruct ns; try contradiction; cbn.
      * ask h. destruct x; cbn; [|reflexivity].
        ask h. destruct (fatalDetachError x); cbn; [reflexivity|].
        follow h; reflexivity.
      * ask h. destruct x; cbn; [|reflexivity].
        ask h. destruct (fatalDetachError x); reflexivity.
  - subst ns.
    destruct (IPAddresses ep) as [|a [|b l]]; cbn; try reflexivity.
    destruct (To4 (IPNet_IP a)); cbn; [|reflexivity].
    follow h; reflexivity.
Qed.

(** X19.  Whenever the create call of an Infra or NamespaceHandle container
    returns an error, the endpoint value, its MAC address included, is the
    one the caller passed in. *)
Theorem failed_create_leaves_endpoint
        (nw : Network) (ep ep' : Endpoint) (e : error) (w : W) :
  fst (getNamespaceIdentifier ep) <> appContainerNS ->
  outcome_of (run h (FindOrCreateEndpoint nw ep) w) = Returned (ep', Some e) ->
  ep' = ep.
Proof.
  unfold outcome_of, FindOrCreateEndpoint, unsupportedAddresses.
  destruct (getNamespaceIdentifier ep) as [ns id]. cbn [fst]. intros Hns.
  destruct (IPAddresses ep) as [|a [|b l]]; cbn; try congruence.
  destruct (To4 (IPNet_IP a)); cbn; [|congruence].
  ask h. destruct x as [found|err]; cbn.
  - destruct ns; try contradiction; cbn; congruence.
  - destruct ns; try contradiction; cbn.
    all: build nw; explore h; congruence.
Qed.

(** X20.  The create call deletes nothing but what it has just created: a delete
    request in its trace is the last call, it follows a create request that
    succeeded, it names the identifier that this create returned, and the
    call returns an error with the endpoint value unchanged. *)
Theorem rollback_deletes_only_created
        (nw : Network) (ep : Endpoint) (w : W)
        (pre post : list event) (id : string) (body : json HNSEndpoint.t)
        (rd : result HNSEndpoint.t) :
  trace_of (run h (FindOrCreateEndpoint nw ep) w)
  = pre ++ EvHNSEndpointRequest "DELETE" id body rd :: post ->
  post = [] /\ body = None
  /\ (exists req resp,
         In (EvHNSEndpointRequest "POST" "" req (inl resp)) pre
         /\ id = HNSEndpoint.Id resp)
  /\ exists e, outcome_of (run h (FindOrCreateEndpoint nw ep) w)
               = Returned (ep, Some e).
Proof.
  unfold trace_of, outcome_of, FindOrCreateEndpoint, unsupportedAddresses.
  destruct (IPAddresses ep) as [|a [|b l]]; cbn;
    [intros H; locate H | | intros H; locate H].
  destruct (To4 (IPNet_IP a)); cbn; [|intros H; locate H].
  destruct (getNamespaceIdentifier ep) as [ns nsid]. cbn.
  ask h. destruct x as [found|err]; cbn.
  - destruct ns; explore h; intros H; locate H.
  - destruct ns; cbn; [build nw | intros H; locate H | build nw].
    all: explore h.
    all: intros H; locate H.
    all: split; [reflexivity|]; split; [reflexivity|]; split;
      [eexists; eexists; split; [cbn; tauto | reflexivity]
      | eexists; reflexivity].
Qed.

End EndpointTraces.

(** ** Create and delete on the reference service *)

Lemma find_none_filter_other {A : Type} (f g : A -> bool) (l : list A) :
  find f l = None -> find f (filter g l) = None.
Proof.
  induction l as [|x l IH]; cbn; [reflexivity|].
  destruct (f x) eqn:F; [discriminate|]. intros H.
  destruct (g x); cbn; [rewrite F|]; now apply IH.
Qed.

Lemma find_last_some {A : Type} (g : A -> bool) (l : list A) (x : A) :
  g x = true -> exists y, find g (l ++ [x]) = Some y.
Proof.
  intros G. induction l as [|z l IH]; cbn.
  - rewrite G. now exists x.
  - destruct (g z); [now exists z | exact IH].
Qed.

Lemma existsb_last {A : Type} (g : A -> bool) (l : list A) (x : A) :
  g x = true -> existsb g (l ++ [x]) = true.
Proof.
  intros G. rewrite existsb_app. cbn. rewrite G. now rewrite orb_true_r.
Qed.

(** The run that creates the endpoint of an infra container: lookup, create
    request, hot-attach. *)
Lemma infra_create_run {netlib : NetLib} (W : Type) (h : handler W)
      (nw : Network) (ep : Endpoint) (a eniAddr : IPNet) (others : list IPNet)
      (id : string) :
  IPAddresses ep = [a] -> To4 (IPNet_IP a) <> None ->
  getNamespaceIdentifier ep = (infraContainerNS, id) ->
  ENIIPAddresses nw = eniAddr :: others ->
  exists req,
    HNSEndpoint.Name req = generateHNSEndpointName ep id
    /\ forall err resp w w1 w2 w3,
        h _ (GetHNSEndpointByName (generateHNSEndpointName ep id)) w = (inr err, w1) ->
        h _ (HNSEndpointRequest "POST" "" (Some req)) w1 = (inl resp, w2) ->
        h _ (HotAttachEndpoint (ContainerID ep) (HNSEndpoint.Id resp)) w2 = (None, w3) ->
        run h (FindOrCreateEndpoint nw ep) w
        = (Returned (set_MACAddress ep (parsedMAC (HNSEndpoint.MacAddress resp)), None),
           w3,
           [EvGetHNSEndpointByName (generateHNSEndpointName ep id) (inr err);
            EvHNSEndpointRequest "POST" "" (Some req) (inl resp);
            EvHotAttachEndpoint (ContainerID ep) (HNSEndpoint.Id resp) None]).
Proof.
  intros Ha H4 Hns Heni. unfold FindOrCreateEndpoint.
  rewrite (unsupportedAddresses_single _ _ Ha).
  destruct (To4 (IPNet_IP a)); [|contradiction].
  cbn. rewrite Hns, Ha. cbn. unfold snatExceptions. rewrite Heni.
  destruct (VPCCIDRs nw); destruct (String.eqb (ServiceCIDR nw) ""); cbn.
  all: eexists; split; [|intros err resp w w1 w2 w3 Hget Hpost Hattach;
                         cbn; answer; rewrite Hpost; cbn; answer; reflexivity].
  all: reflexivity.
Qed.

(** The run that finds the endpoint of an Infra or NamespaceHandle
    container. *)
Lemma found_endpoint_run {netlib : NetLib} (W : Type) (h : handler W)
      (nw : Network) (ep : Endpoint) (a : IPNet) (ns : nsType) (id : string)
      (e : HNSEndpoint.t) (w w1 : W) :
  IPAddresses ep = [a] -> To4 (IPNet_IP a) <> None ->
  getNamespaceIdentifier ep = (ns, id) -> ns <> appContainerNS ->
  h _ (GetHNSEndpointByName (generateHNSEndpointName ep id)) w = (inl e, w1) ->
  run h (FindOrCreateEndpoint nw ep) w
  = (Returned (set_MACAddress ep (parsedMAC (HNSEndpoint.MacAddress e)), None),
     w1,
     [EvGetHNSEndpointByName (generateHNSEndpointName ep id) (inl e)]).
Proof.
  intros Ha H4 Hns Happ Hget. unfold FindOrCreateEndpoint.
  rewrite (unsupportedAddresses_single _ _ Ha).
  destruct (To4 (IPNet_IP a)); [|contradiction].
  cbn. rewrite Hns. cbn. answer.
  destruct ns; [reflexivity | contradiction | reflexivity].
Qed.

(** The run that deletes the endpoint of an infra container. *)
Lemma infra_delete_run (W : Type) (h : handler W)
      (nw : Network) (ep : Endpoint) (id : string) (e : HNSEndpoint.t)
      (w w1 w2 w3 : W) (r : option error) (rd : result HNSEndpoint.t) :
  getNamespaceIdentifier ep = (infraContainerNS, id) ->
  h _ (GetHNSEndpointByName (generateHNSEndpointName ep id)) w = (inl e, w1) ->
  h _ (HotDetachEndpoint (ContainerID ep) (HNSEndpoint.Id e)) w1 = (r, w2) ->
  fatalDetachError r = false ->
  h _ (HNSEndpointRequest "DELETE" (HNSEndpoint.Id e) None) w2 = (rd, w3) ->
  run h (DeleteEndpoint nw ep) w
  = (Returned (errorOf rd), w3,
     [EvGetHNSEndpointByName (generateHNSEndpointName ep id) (inl e);
      EvHotDetachEndpoint (ContainerID ep) (HNSEndpoint.Id e) r;
      EvHNSEndpointRequest "DELETE" (HNSEndpoint.Id e) None rd]).
Proof.
  intros Hns Hget Hdetach Hok Hdel.
  unfold DeleteEndpoint. rewrite Hns. cbn. answer. rewrite Hok. cbn. answer.
  destruct rd; reflexivity.
Qed.

Lemma serve_lookup (t : Service.state) (name : string) (e : HNSEndpoint.t) :
  Service.endpointByName t name = Some e ->
  Service.serve _ (GetHNSEndpointByName name) t = (inl e, t).
Proof. intros H. cbn. now rewrite H. Qed.

Lemma serve_detach (t : Service.state) (c i : string) :
  Service.mem c (Service.containers t) = true ->
  existsb (Service.pair_eqb (c, i)) (Service.attached t) = true ->
  Service.serve _ (HotDetachEndpoint c i) t
  = (None,
     Service.with_attached t
       (filter (fun p => negb (Service.pair_eqb (c, i) p)) (Service.attached t))).
Proof.
  intros Hc Ha. cbn. unfold Service.hotDetach. now rewrite Hc, Ha.
Qed.

Lemma serve_delete (t : Service.state) (i : string) (y : HNSEndpoint.t) :
  find (fun e => String.eqb (HNSEndpoint.Id e) i) (Service.endpoints t) = Some y ->
  Service.serve _ (HNSEndpointRequest "DELETE" i None) t
  = (inl y,
     Service.with_endpoints t
       (filter (fun e => negb (String.eqb (HNSEndpoint.Id e) i)) (Service.endpoints t))
       (Service.nextId t)).
Proof.
  intros H. cbn. unfold Service.endpointRequest. cbn. now rewrite H.
Qed.

Section ReferenceEndpoint.

Context {netlib : NetLib}.
Variable s : Service.state.
Variable nw : Network.
Variable ep : Endpoint.
Variable a : IPNet.
Variable id : string.

Hypothesis single_address : IPAddresses ep = [a].
Hypothesis address_is_ipv4 : To4 (IPNet_IP a) <> None.
Hypothesis infra : getNamespaceIdentifier ep = (infraContainerNS, id).
Hypothesis interface_has_address : ENIIPAddresses nw <> [].
Hypothesis container_runs :
  Service.mem (ContainerID ep) (Service.containers s) = true.

Lemma reference_infra_created :
  Service.endpointByName s (generateHNSEndpointName ep id) = None ->
  exists e,
    HNSEndpoint.Name e = generateHNSEndpointName ep id
    /\ HNSEndpoint.Id e = Service.freshId s
    /\ HNSEndpoint.MacAddress e = Service.freshMac s
    /\ outcome_of (run Service.serve (FindOrCreateEndpoint nw ep) s)
       = Returned (set_MACAddress ep (parsedMAC (Service.freshMac s)), None)
    /\ state_of (run Service.serve (FindOrCreateEndpoint nw ep) s) = createdState s ep e.
Proof.
  intros Hnone.
  destruct (ENIIPAddresses nw) as [|eniAddr others] eqn:Heni; [contradiction|].
  destruct (infra_create_run _ Service.serve nw ep a eniAddr others id
              single_address address_is_ipv4 infra Heni) as (req & Hname & Hrun).
  set (e := {| HNSEndpoint.Id := Service.freshId s;
               HNSEndpoint.Name := HNSEndpoint.Name req;
               HNSEndpoint.VirtualNetworkName := HNSEndpoint.VirtualNetworkName req;
               HNSEndpoint.DNSSuffix := HNSEndpoint.DNSSuffix req;
               HNSEndpoint.DNSServerList := HNSEndpoint.DNSServerList req;
               HNSEndpoint.IPAddress := HNSEndpoint.IPAddress req;
               HNSEndpoint.PrefixLength := HNSEndpoint.PrefixLength req;
               HNSEndpoint.MacAddress := Service.freshMac s;
               HNSEndpoint.Policies := HNSEndpoint.Policies req |}).
  exists e.
  rewrite (Hrun (Service.notFound "endpoint" (generateHNSEndpointName ep id)) e
                s s
                (Service.with_endpoints s (Service.endpoints s ++ [e])
                                        (Service.nextId s + 1))
                (createdState s ep e)).
  - split; [exact Hname|]. repeat split.
  - cbn. now rewrite Hnone.
  - reflexivity.
  - pose proof container_runs as Hruns. unfold Service.mem in Hruns.
    cbn. unfold Service.hotAttach, Service.mem. cbn. rewrite Hruns. cbn.
    unfold Service.hasEndpoint. cbn.
    rewrite existsb_last by apply String.eqb_refl. reflexivity.
Qed.

Lemma reference_found (t : Service.state) (e : HNSEndpoint.t) :
  Service.endpointByName t (generateHNSEndpointName ep id) = Some e ->
  run Service.serve (FindOrCreateEndpoint nw ep) t
  = (Returned (set_MACAddress ep (parsedMAC (HNSEndpoint.MacAddress e)), None),
     t,
     [EvGetHNSEndpointByName (generateHNSEndpointName ep id) (inl e)]).
Proof.
  intros Hfound.
  apply found_endpoint_run with (a := a) (ns := infraContainerNS);
    try assumption; try discriminate.
  cbn. now rewrite Hfound.
Qed.

Lemma created_is_found (e : HNSEndpoint.t) :
  Service.endpointByName s (generateHNSEndpointName ep id) = None ->
  HNSEndpoint.Name e = generateHNSEndpointName ep id ->
  Service.endpointByName (createdState s ep e) (generateHNSEndpointName ep id)
  = Some e.
Proof.
  unfold Service.endpointByName. cbn. intros Hnone Hname.
  rewrite (find_none_app _ _ _ Hnone). cbn.
  now rewrite Hname, String.eqb_refl.
Qed.

(** X21.  On the reference service, with the container running, two identical
    create calls for an infra container in a row both succeed with the same
    MAC address; the second makes no mutating request and leaves the state
    as the first left it, and the endpoints under the computed name are
    exactly one when there was none before (as many as before otherwise). *)
Theorem reference_endpoint_create_idempotent :
  exists mac,
    outcome_of (run Service.serve (FindOrCreateEndpoint nw ep) s)
    = Returned (set_MACAddress ep mac, None)
    /\ outcome_of (run Service.serve (FindOrCreateEndpoint nw ep)
                       (state_of (run Service.serve (FindOrCreateEndpoint nw ep) s)))
       = Returned (set_MACAddress ep mac, None)
    /\ existsb isMutation
         (trace_of (run Service.serve (FindOrCreateEndpoint nw ep)
                        (state_of (run Service.serve (FindOrCreateEndpoint nw ep) s))))
       = false
    /\ state_of (run Service.serve (FindOrCreateEndpoint nw ep)
                     (state_of (run Service.serve (FindOrCreateEndpoint nw ep) s)))
       = state_of (run Service.serve (FindOrCreateEndpoint nw ep) s)
    /\ countEndpoints (state_of (run Service.serve (FindOrCreateEndpoint nw ep) s))
                      (generateHNSEndpointName ep id)
       = Nat.max 1 (countEndpoints s (generateHNSEndpointName ep id)).
Proof.
  destruct (Service.endpointByName s (generateHNSEndpointName ep id)) as [e|] eqn:Hfind.
  - exists (parsedMAC (HNSEndpoint.MacAddress e)).
    rewrite (reference_found s e Hfind).
    cbn [state_of outcome_of trace_of fst snd].
    rewrite (reference_found s e Hfind).
    cbn [state_of outcome_of trace_of fst snd].
    repeat split.
    apply find_some_filter in Hfind. unfold countEndpoints. lia.
  - destruct (reference_infra_created Hfind)
      as (e & Hname & Hid & Hmac & Hout & Hstate).
    exists (parsedMAC (Service.freshMac s)).
    rewrite Hout, Hstate.
    rewrite (reference_found _ e (created_is_found e Hfind Hname)).
    cbn [state_of outcome_of trace_of fst snd]. rewrite Hmac.
    repeat split.
    unfold countEndpoints, Service.endpointByName in *. cbn.
    rewrite filter_app, (find_none_filter _ _ Hfind). cbn.
    now rewrite Hname, String.eqb_refl.
Qed.

(** X22.  On the reference service, with the container running and no endpoint
    under the computed name, the create call of an infra container followed
    by its delete call succeeds and leaves no endpoint under that name. *)
Theorem reference_endpoint_create_delete :
  Service.endpointByName s (generateHNSEndpointName ep id) = None ->
  outcome_of (run Service.serve (DeleteEndpoint nw ep)
                  (state_of (run Service.serve (FindOrCreateEndpoint nw ep) s)))
  = Returned None
  /\ Service.endpointByName
       (state_of (run Service.serve (DeleteEndpoint nw ep)
                      (state_of (run Service.serve (FindOrCreateEndpoint nw ep) s))))
       (generateHNSEndpointName ep id)
     = None.
Proof.
  intros Hfind.
  destruct (reference_infra_created Hfind)
    as (e & Hname & Hid & Hmac & Hout & Hstate).
  rewrite Hstate.
  destruct (find_last_some
              (fun e0 => String.eqb (HNSEndpoint.Id e0) (HNSEndpoint.Id e))
              (Service.endpoints s) e (String.eqb_refl _)) as [y Hy].
  erewrite (infra_delete_run _ Service.serve nw ep id e).
  2: exact infra.
  2: apply serve_lookup; exact (created_is_found e Hfind Hname).
  2: { apply serve_detach.
       - exact container_runs.
       - cbn. rewrite Hid. apply existsb_last.
         unfold Service.pair_eqb. cbn. now rewrite !String.eqb_refl. }
  2: reflexivity.
  2: apply serve_delete; exact Hy.
  cbn [state_of outcome_of trace_of fst snd errorOf]. split; [reflexivity|].
  unfold Service.endpointByName in *. cbn.
  rewrite filter_app. cbn. rewrite String.eqb_refl. cbn.
  rewrite app_nil_r. now apply find_none_filter_other.
Qed.

End ReferenceEndpoint.

(** The run of [DeleteNetwork] that finds the network. *)
Lemma delete_network_run {netlib : NetLib} (W : Type) (h : handler W)
      (nw : Network) (n : HNSNetwork.t) (rd : result HNSNetwork.t) (w w1 w2 : W) :
  h _ (GetHNSNetworkByName (generateHNSNetworkName nw)) w = (inl n, w1) ->
  h _ (HNSNetworkRequest "DELETE" (HNSNetwork.Id n) None) w1 = (rd, w2) ->
  run h (DeleteNetwork nw) w
  = (Returned (errorOf rd), w2,
     [EvGetHNSNetworkByName (generateHNSNetworkName nw) (inl n);
      EvHNSNetworkRequest "DELETE" (HNSNetwork.Id n) None rd]).
Proof.
  intros Hget Hdel. unfold DeleteNetwork. cbn. answer. destruct rd; reflexivity.
Qed.

Lemma serve_network_lookup (t : Service.state) (name : string) (n : HNSNetwork.t) :
  Service.networkByName t name = Some n ->
  Service.serve _ (GetHNSNetworkByName name) t = (inl n, t).
Proof. intros H. cbn. now rewrite H. Qed.

Lemma serve_network_delete (t : Service.state) (i : string) (y : HNSNetwork.t) :
  find (fun n => String.eqb (HNSNetwork.Id n) i) (Service.networks t) = Some y ->
  Service.serve _ (HNSNetworkRequest "DELETE" i None) t
  = (inl y,
     Service.with_networks t
       (filter (fun n => negb (String.eqb (HNSNetwork.Id n) i)) (Service.networks t))
       (Service.nextId t)).
Proof.
  intros H. cbn. unfold Service.networkRequest. cbn. now rewrite H.
Qed.

(** X23.  On the reference service at a supported version, creating a network in
    the host namespace that did not exist and then deleting it succeeds and
    leaves no network under the computed name. *)
Theorem reference_network_create_delete {netlib : NetLib}
        (s : Service.state) (nw : Network) :
  supported (Service.version s) = true ->
  BridgeNetNSPath nw = "" ->
  ENIIPAddresses nw <> [] ->
  Service.networkByName s (generateHNSNetworkName nw) = None ->
  outcome_of (run Service.serve (DeleteNetwork nw)
                  (state_of (run Service.serve (FindOrCreateNetwork nw) s)))
  = Returned None
  /\ Service.networkByName
       (state_of (run Service.serve (DeleteNetwork nw)
                      (state_of (run Service.serve (FindOrCreateNetwork nw) s))))
       (generateHNSNetworkName nw)
     = None.
Proof.
  intros Hs Hhost Heni Hfind.
  destruct (ENIIPAddresses nw) as [|a others] eqn:Ha; [contradiction|].
  destruct (reference_network_created s nw Hs Hhost a others Ha Hfind)
    as (n & Hname & Hstate & _).
  rewrite Hstate.
  destruct (find_last_some
              (fun n0 => String.eqb (HNSNetwork.Id n0) (HNSNetwork.Id n))
              (Service.networks s) n (String.eqb_refl _)) as [y Hy].
  erewrite (delete_network_run _ Service.serve nw n).
  2: { apply serve_network_lookup. unfold Service.networkByName in *. cbn.
       rewrite (find_none_app _ _ _ Hfind). cbn.
       now rewrite Hname, String.eqb_refl. }
  2: apply serve_network_delete; exact Hy.
  cbn [state_of outcome_of trace_of fst snd errorOf]. split; [reflexivity|].
  unfold Service.networkByName in *. cbn.
  rewrite filter_app. cbn. rewrite String.eqb_refl. cbn.
  rewrite app_nil_r. now apply find_none_filter_other.
Qed.

(** ** The further properties on sample runs *)

Lemma delete_network_by_lookup_witness :
  run Service.serve (DeleteNetwork nwPlain) Service.fresh
  = (Returned (Some (Service.notFound "network" "vpcbr0a1b2c3d4e5f")),
     Service.fresh,
     [EvGetHNSNetworkByName "vpcbr0a1b2c3d4e5f"
        (inr (Service.notFound "network" "vpcbr0a1b2c3d4e5f"))])
  /\ outcome_of (run Service.serve (DeleteNetwork nwPlain) hostWithNetwork)
     = Returned None.
Proof.
  split.
  - apply (proj1 (@delete_network_by_lookup IPv4Lib _ Service.serve nwPlain
                    Service.fresh)).
    reflexivity.
  - refine (f_equal outcome_of
              (proj2 (@delete_network_by_lookup IPv4Lib _ Service.serve nwPlain
                        hostWithNetwork) _ _ _ _ eq_refl eq_refl)).
Defined.

Lemma network_create_request_witness :
  BridgeNetNSPath nwPlain = ""
  /\ outcome_of (run Service.serve (FindOrCreateNetwork nwPlain) Service.fresh)
     = Returned None.
Proof.
  destruct (@network_create_request IPv4Lib _ Service.serve nwPlain Service.fresh
              _ _ (or_intror (or_intror (or_introl eq_refl))))
    as (Hhost & _ & Hout).
  split; [exact Hhost | exact Hout].
Defined.

Lemma network_create_panics_without_address_witness :
  outcome_of (run Service.serve (FindOrCreateNetwork nwNoAddress) Service.fresh)
  = Panicked "runtime error: index out of range".
Proof.
  refine (f_equal outcome_of
            (@network_create_panics_without_address IPv4Lib _ Service.serve
               nwNoAddress Service.fresh _ _ _ _
               eq_refl eq_refl eq_refl eq_refl eq_refl)).
Defined.

Lemma version_query_error_returned_witness :
  run unavailable (FindOrCreateNetwork nwPlain) tt
  = (Returned (Some (ErrService "HNS is unavailable")), tt,
     [EvGetHNSGlobals (inr (ErrService "HNS is unavailable"))]).
Proof.
  apply (proj2 (@version_query_error_returned IPv4Lib _ unavailable nwPlain
                  tt tt _ eq_refl)).
Defined.

Lemma sibling_shares_endpoint_name_witness :
  generateHNSEndpointName
    (mkEndpoint "c9" "container:c1" [addr1])
    (snd (getNamespaceIdentifier (mkEndpoint "c9" "container:c1" [addr1])))
  = generateHNSEndpointName
      (mkEndpoint "c1" "none" [addr1])
      (snd (getNamespaceIdentifier (mkEndpoint "c1" "none" [addr1]))).
Proof.
  apply (@sibling_shares_endpoint_name
           (mkEndpoint "c1" "none" [addr1]) (mkEndpoint "c9" "container:c1" [addr1])).
  - right. reflexivity.
  - reflexivity.
  - discriminate.
Defined.

Lemma empty_sibling_reference_falls_back_witness :
  generateHNSEndpointName
    (mkEndpoint "c9" "container:" [addr1])
    (snd (getNamespaceIdentifier (mkEndpoint "c9" "container:" [addr1])))
  = "cid-c9".
Proof.
  apply (@empty_sibling_reference_falls_back (mkEndpoint "c9" "container:" [addr1])).
  reflexivity.
Defined.

Lemma app_without_endpoint_fails_witness :
  outcome_of (run Service.serve
                  (FindOrCreateEndpoint nwPlain (mkEndpoint "c9" "container:c1" [addr1]))
                  Service.fresh)
  = Returned (mkEndpoint "c9" "container:c1" [addr1],
              Some (Errorf "failed to find endpoint %s: %v"
                           [ArgString "cid-c1";
                            ArgError (Service.notFound "endpoint" "cid-c1")])).
Proof.
  refine (f_equal outcome_of
            (@app_without_endpoint_fails IPv4Lib _ Service.serve nwPlain
               (mkEndpoint "c9" "container:c1" [addr1]) addr1 "c1" _
               Service.fresh _ eq_refl _ eq_refl eq_refl)).
  discriminate.
Defined.

Lemma existing_endpoint_is_kept_witness :
  run Service.serve (FindOrCreateEndpoint nwPlain (mkEndpoint "c1" "none" [addr1]))
      hostWithEndpoint
  = (Returned ({| ContainerID := "c1"; NetNSName := "none";
                  IPAddresses := [addr1];
                  MACAddress := [x00; x15; x5d; x00; x00; x01] |}, None),
     hostWithEndpoint,
     [EvGetHNSEndpointByName "cid-c1"
        (fst (Service.serve _ (GetHNSEndpointByName "cid-c1") hostWithEndpoint))]).
Proof.
  refine (@existing_endpoint_is_kept IPv4Lib _ Service.serve nwPlain
            (mkEndpoint "c1" "none" [addr1]) addr1 infraContainerNS "c1" _
            hostWithEndpoint _ eq_refl _ eq_refl _ eq_refl); discriminate.
Defined.

Lemma attach_v2_checks_membership_witness :
  outcome_of (run Service.serve
                  (attachEndpointV2 reqPlain "no-such-namespace") Service.fresh)
  = Returned (Some (Service.notFound "namespace" "no-such-namespace"))
  /\ run Service.serve (attachEndpointV2 reqPlain "ns-123") Service.fresh
     = (Returned (Some (Service.notFound "endpoint" "")), Service.fresh,
        [EvGetNamespaceEndpointIds "ns-123" (inl []);
         EvAddNamespaceEndpoint "ns-123" "" (Some (Service.notFound "endpoint" ""))]).
Proof.
  split.
  - refine (f_equal outcome_of
              (proj1 (@attach_v2_checks_membership _ Service.serve reqPlain
                        "no-such-namespace" Service.fresh) _ _ eq_refl)).
  - refine (proj2 (proj2 (@attach_v2_checks_membership _ Service.serve reqPlain
                            "ns-123" Service.fresh)) _ _ _ _ eq_refl _ eq_refl).
    intros [].
Defined.

Lemma delete_endpoint_gives_up_witness :
  outcome_of (run Service.serve
                  (DeleteEndpoint nwPlain (mkEndpoint "c1" "none" [addr1]))
                  Service.fresh)
  = Returned (Some (Service.notFound "endpoint" "cid-c1"))
  /\ outcome_of (run Service.serve
                     (DeleteEndpoint nwPlain (mkEndpoint "c1" "container:ns-123" [addr1]))
                     hostWithNamespaceEndpoint)
     = Returned (Some (ErrService "endpoint is not attached")).
Proof.
  split.
  - refine (f_equal outcome_of
              (proj1 (@delete_endpoint_gives_up _ Service.serve nwPlain
                        (mkEndpoint "c1" "none" [addr1]) infraContainerNS "c1"
                        Service.fresh eq_refl) _ _ eq_refl)).
  - refine (f_equal outcome_of
              (proj2 (@delete_endpoint_gives_up _ Service.serve nwPlain
                        (mkEndpoint "c1" "container:ns-123" [addr1])
                        appContainerNS "ns-123"
                        hostWithNamespaceEndpoint eq_refl)
                     _ _ _ _ _ eq_refl eq_refl _)); discriminate.
Defined.

Lemma endpoint_create_panics_without_interface_address_witness :
  outcome_of (run Service.serve
                  (FindOrCreateEndpoint nwNoAddress (mkEndpoint "c1" "none" [addr1]))
                  Service.fresh)
  = Panicked "runtime error: index out of range".
Proof.
  refine (f_equal outcome_of
            (@endpoint_create_panics_without_interface_address
               IPv4Lib _ Service.serve nwNoAddress
               (mkEndpoint "c1" "none" [addr1]) addr1 infraContainerNS "c1" _
               Service.fresh _ eq_refl _ eq_refl _ eq_refl eq_refl
               (or_introl eq_refl))); discriminate.
Defined.

Lemma create_request_fields_witness :
  HNSEndpoint.Name reqVPC = "cid-c1"
  /\ HNSEndpoint.VirtualNetworkName reqVPC = "vpcbr0a1b2c3d4e5f"
  /\ (0 <= HNSEndpoint.PrefixLength reqVPC < 256)%Z.
Proof.
  destruct (@create_request_fields IPv4Lib _ Service.serve nwVPC
              (mkEndpoint "c1" "none" [addr1]) Service.fresh reqVPC _
              (or_intror (or_introl eq_refl)))
    as (_ & _ & _ & Hname & Hnetwork & _ & _ & a & _ & _ & _ & _ & Hbound).
  split; [exact Hname|]. split; [exact Hnetwork | exact Hbound].
Defined.

Lemma create_request_routes_witness :
  tl (HNSEndpoint.Policies reqPlain) = []
  /\ tl (HNSEndpoint.Policies reqVPC)
     = [hnsRoutePolicy "172.20.0.0/16" true; hnsRoutePolicy "10.0.0.5/32" true].
Proof.
  split.
  - apply (proj1 (@create_request_routes IPv4Lib _ Service.serve nwPlain
                    (mkEndpoint "c1" "none" [addr1]) Service.fresh reqPlain _
                    (or_intror (or_introl eq_refl)))).
    reflexivity.
  - destruct (proj2 (@create_request_routes IPv4Lib _ Service.serve nwVPC
                       (mkEndpoint "c1" "none" [addr1]) Service.fresh reqVPC _
                       (or_intror (or_introl eq_refl))))
      as (eniAddr & others & Heni & Hroutes); [discriminate|].
    injection Heni as <- <-. exact Hroutes.
Defined.

Lemma new_endpoint_is_attached_witness :
  {| ContainerID := "c1"; NetNSName := "none"; IPAddresses := [addr1];
     MACAddress := [x00; x15; x5d; x00; x00; x01] |}
  = set_MACAddress (mkEndpoint "c1" "none" [addr1]) (parsedMAC "00-15-5d-00-00-01").
Proof.
  refine (proj1 (@new_endpoint_is_attached IPv4Lib _ Service.serve nwPlain
                   (mkEndpoint "c1" "none" [addr1]) _ Service.fresh
                   [_] _ _ _ eq_refl eq_refl)).
Defined.

Lemma attachment_protocols_do_not_mix_witness :
  existsb isLegacyCall
    (trace_of (run Service.serve
                   (FindOrCreateEndpoint nwPlain (mkEndpoint "c7" "ns-123" [addr1]))
                   Service.fresh)) = false
  /\ existsb isNamespaceCall
       (trace_of (run Service.serve
                      (DeleteEndpoint nwPlain (mkEndpoint "c1" "none" [addr1]))
                      hostWithEndpoint)) = false
  /\ existsb isEndpointRequest
       (trace_of (run Service.serve
                      (FindOrCreateEndpoint nwPlain
                         (mkEndpoint "c9" "container:c1" [addr1]))
                      hostWithEndpoint)) = false.
Proof.
  split; [|split].
  - apply (proj1 (@attachment_protocols_do_not_mix IPv4Lib _ Service.serve nwPlain
                    (mkEndpoint "c7" "ns-123" [addr1]) Service.fresh)).
    reflexivity.
  - apply (proj1 (proj2 (@attachment_protocols_do_not_mix IPv4Lib _ Service.serve
                           nwPlain (mkEndpoint "c1" "none" [addr1])
                           hostWithEndpoint))).
    discriminate.
  - apply (proj2 (proj2 (@attachment_protocols_do_not_mix IPv4Lib _ Service.serve
                           nwPlain (mkEndpoint "c9" "container:c1" [addr1])
                           hostWithEndpoint))).
    reflexivity.
Defined.

Lemma failed_create_leaves_endpoint_witness :
  outcome_of (run Service.serve (FindOrCreateEndpoint nwPlain epGone) Service.fresh)
  = Returned (epGone, Some ErrComputeSystemDoesNotExist)
  /\ epGone = epGone.
Proof.
  split; [reflexivity|].
  apply (@failed_create_leaves_endpoint IPv4Lib _ Service.serve nwPlain
           epGone epGone ErrComputeSystemDoesNotExist Service.fresh).
  - discriminate.
  - reflexivity.
Defined.

Lemma rollback_deletes_only_created_witness :
  exists e,
    outcome_of (run Service.serve (FindOrCreateEndpoint nwPlain epGone) Service.fresh)
    = Returned (epGone, Some e).
Proof.
  refine (proj2 (proj2 (proj2
            (@rollback_deletes_only_created IPv4Lib _ Service.serve nwPlain epGone
               Service.fresh [_; _; _] _ _ _ _ eq_refl)))).
Defined.

Lemma reference_endpoint_create_idempotent_witness :
  exists mac,
    outcome_of (run Service.serve
                    (FindOrCreateEndpoint nwPlain (mkEndpoint "c1" "none" [addr1]))
                    Service.fresh)
    = Returned (set_MACAddress (mkEndpoint "c1" "none" [addr1]) mac, None)
    /\ countEndpoints
         (state_of (run Service.serve
                        (FindOrCreateEndpoint nwPlain (mkEndpoint "c1" "none" [addr1]))
                        Service.fresh))
         "cid-c1" = 1%nat.
Proof.
  destruct (@reference_endpoint_create_idempotent IPv4Lib Service.fresh nwPlain
              (mkEndpoint "c1" "none" [addr1]) addr1 "c1" eq_refl)
    as (mac & Hfirst & _ & _ & _ & Hcount);
    try reflexivity; try discriminate.
  exists mac. split; [exact Hfirst | exact Hcount].
Defined.

Lemma reference_endpoint_create_delete_witness :
  outcome_of
    (run Service.serve (DeleteEndpoint nwPlain (mkEndpoint "c1" "none" [addr1]))
         (state_of (run Service.serve
                        (FindOrCreateEndpoint nwPlain (mkEndpoint "c1" "none" [addr1]))
                        Service.fresh)))
  = Returned None.
Proof.
  apply (@reference_endpoint_create_delete IPv4Lib Service.fresh nwPlain
           (mkEndpoint "c1" "none" [addr1]) addr1 "c1");
    try reflexivity; discriminate.
Defined.

Lemma reference_network_create_delete_witness :
  outcome_of
    (run Service.serve (DeleteNetwork nwPlain)
         (state_of (run Service.serve (FindOrCreateNetwork nwPlain) Service.fresh)))
  = Returned None.
Proof.
  apply (@reference_network_create_delete IPv4Lib Service.fresh nwPlain);
    try reflexivity; discriminate.
Defined.
